(** * Checking ISBNs in Bobcat: a shallow embedding of the notebook

    The notebook [notebooks/bobcat-isbn-match.ipynb] reads a list of ISBN
    strings, pads and validates each one, looks the valid ones up in the
    library catalog through a Selenium browser session, and exports the
    found / not found answers as a CSV file.

    Python strings are modelled as Rocq [string]s (sequences of 8-bit
    characters; the ISBN alphabet is ASCII), Python integers as [Z], the
    browser session and the notebook's global variables as an explicit
    state threaded through a small state-and-exception monad. *)

From Stdlib Require Import ZArith List Bool Ascii String Lia.
Import ListNotations.

Open Scope string_scope.
Open Scope Z_scope.

(** ** Python primitives used by the notebook *)

Module Py.

(** [len(s)]. *)
Definition len (s : string) : Z := Z.of_nat (String.length s).

Fixpoint repeat_str (s : string) (n : nat) : string :=
  match n with
  | O => EmptyString
  | S n' => s ++ repeat_str s n'
  end.

(** [s * n]: a count that is zero or negative gives the empty string. *)
Definition str_mul (s : string) (n : Z) : string := repeat_str s (Z.to_nat n).

Definition is_lower (c : ascii) : bool :=
  ((97 <=? nat_of_ascii c) && (nat_of_ascii c <=? 122))%nat.

Definition upper_char (c : ascii) : ascii :=
  if is_lower c then ascii_of_nat (nat_of_ascii c - 32) else c.

(** [s.upper()] on ASCII text. *)
Fixpoint upper (s : string) : string :=
  match s with
  | EmptyString => EmptyString
  | String c rest => String (upper_char c) (upper rest)
  end.

(** [needle in hay] for strings: substring test. *)
Fixpoint str_in (needle hay : string) : bool :=
  if prefix needle hay then true
  else match hay with
       | EmptyString => false
       | String _ rest => str_in needle rest
       end.

(** What the substring test decides. *)
Definition occurs_in (needle hay : string) : Prop :=
  exists before after : string, hay = before ++ needle ++ after.

(** [str(b)] for a boolean. *)
Definition str_of_bool (b : bool) : string := if b then "True" else "False".

End Py.

(** ** The functions imported from the isbnlib package

    [from isbnlib import is_isbn10, is_isbn13, clean].  The package is a
    third-party dependency of the notebook; the notebook's own functions
    are embedded over this interface, and every result that does not
    depend on what the package computes is proved for all its
    implementations. *)

Class IsbnLib : Type := {
  clean : string -> string;
  is_isbn10 : string -> bool;
  is_isbn13 : string -> bool
}.

Section Validation.

Context {lib : IsbnLib}.

(** [def validate_isbn(isbn)]. *)
Definition validate_isbn (isbn : string) : bool :=
  if is_isbn13 isbn || is_isbn10 isbn then true else false.

(** [def pad_isbn(isbn)]. *)
Definition pad_isbn (isbn : string) : string :=
  if Py.len (clean isbn) <? 10
  then Py.str_mul "0" (10 - Py.len isbn) ++ isbn
  else isbn.

(** The normalisation step of the batch loop: [pad_isbn(isbn.upper())]. *)
Definition normalize (isbn : string) : string := pad_isbn (Py.upper isbn).

End Validation.

(** ** The ISBN checks, modelled from the specification *)

Module IsbnSpec.

Definition is_separator (c : ascii) : bool :=
  Ascii.eqb c "-" || Ascii.eqb c " ".

(** Modelled from the spec: isbnlib's [clean], which is not part of the
    repository.  The specification describes the cleaned form as the
    input with hyphens and spaces removed. *)
Fixpoint clean (s : string) : string :=
  match s with
  | EmptyString => EmptyString
  | String c rest =>
      if is_separator c then clean rest else String c (clean rest)
  end.

(** The hyphens and spaces of a string, in the order they stand. *)
Fixpoint separators (s : string) : string :=
  match s with
  | EmptyString => EmptyString
  | String c rest =>
      if is_separator c then String c (separators rest) else separators rest
  end.

Definition digit_value (c : ascii) : option Z :=
  let n := nat_of_ascii c in
  if ((48 <=? n) && (n <=? 57))%nat then Some (Z.of_nat (n - 48)) else None.

(** The last character of an ISBN-10 may be [X], standing for ten. *)
Definition check_value (c : ascii) : option Z :=
  if Ascii.eqb c "X" then Some 10 else digit_value c.

Fixpoint digits (s : string) : option (list Z) :=
  match s with
  | EmptyString => Some []
  | String c rest =>
      match digit_value c, digits rest with
      | Some d, Some ds => Some (d :: ds)
      | _, _ => None
      end
  end.

Fixpoint digits_x (s : string) : option (list Z) :=
  match s with
  | EmptyString => Some []
  | String c EmptyString =>
      match check_value c with
      | Some d => Some [d]
      | None => None
      end
  | String c rest =>
      match digit_value c, digits_x rest with
      | Some d, Some ds => Some (d :: ds)
      | _, _ => None
      end
  end.

(** Weights 1, 3, 1, 3, ... from the left. *)
Fixpoint sum13 (ds : list Z) (odd : bool) : Z :=
  match ds with
  | [] => 0
  | d :: rest => (if odd then 3 else 1) * d + sum13 rest (negb odd)
  end.

(** Weights [w], [w - 1], ... from the left. *)
Fixpoint sum10 (ds : list Z) (w : Z) : Z :=
  match ds with
  | [] => 0
  | d :: rest => w * d + sum10 rest (w - 1)
  end.

(** Modelled from the spec: isbnlib's [is_isbn13], which is not part of
    the repository: the ISBN-13 checksum rule on the cleaned input. *)
Definition is_isbn13 (s : string) : bool :=
  match digits (clean s) with
  | Some ds => (List.length ds =? 13)%nat && (sum13 ds false mod 10 =? 0)
  | None => false
  end.

(** Modelled from the spec: isbnlib's [is_isbn10], which is not part of
    the repository: the ISBN-10 checksum rule on the cleaned input. *)
Definition is_isbn10 (s : string) : bool :=
  match digits_x (clean s) with
  | Some ds => (List.length ds =? 10)%nat && (sum10 ds 10 mod 11 =? 0)
  | None => false
  end.

Definition lib : IsbnLib := Build_IsbnLib clean is_isbn10 is_isbn13.

(** The checksum rules as they are usually written out. *)

Definition is_digit (d : Z) : Prop := 0 <= d <= 9.

Definition digit_char (d : Z) : ascii := ascii_of_nat (48 + Z.to_nat d).

Definition check_char (d : Z) : ascii :=
  if d =? 10 then "X"%char else digit_char d.

Definition chars (cs : list ascii) : string :=
  fold_right String EmptyString cs.

Definition Isbn13 (cleaned : string) : Prop :=
  exists d1 d2 d3 d4 d5 d6 d7 d8 d9 d10 d11 d12 d13,
    cleaned = chars (map digit_char [d1; d2; d3; d4; d5; d6; d7; d8; d9; d10; d11; d12; d13])
    /\ Forall is_digit [d1; d2; d3; d4; d5; d6; d7; d8; d9; d10; d11; d12; d13]
    /\ (d1 + 3 * d2 + d3 + 3 * d4 + d5 + 3 * d6 + d7 + 3 * d8 + d9
        + 3 * d10 + d11 + 3 * d12 + d13) mod 10 = 0.

Definition Isbn10 (cleaned : string) : Prop :=
  exists d1 d2 d3 d4 d5 d6 d7 d8 d9 d10,
    cleaned = chars (map digit_char [d1; d2; d3; d4; d5; d6; d7; d8; d9] ++ [check_char d10])%list
    /\ Forall is_digit [d1; d2; d3; d4; d5; d6; d7; d8; d9]
    /\ 0 <= d10 <= 10
    /\ (10 * d1 + 9 * d2 + 8 * d3 + 7 * d4 + 6 * d5 + 5 * d6 + 4 * d7
        + 3 * d8 + 2 * d9 + d10) mod 11 = 0.

End IsbnSpec.

(** ** The browser session and the notebook's state *)

(** A call either returns or raises; the notebook catches nothing, so one
    exception constructor is enough. *)
Inductive outcome (A : Type) : Type :=
| Returned (a : A)
| Raised.

Arguments Returned {A} a.
Arguments Raised {A}.

(** The two things the notebook asks of the Selenium session.  [None]
    stands for a call that raises (time-out, missing element, crashed
    session). *)
Class WebDriver (B : Type) : Type := {
  (** [browser.get(url)] *)
  driver_get : string -> B -> option B;
  (** [browser.find_element(By.XPATH, "html").text] *)
  driver_html_text : B -> option string
}.

(** The global variables of the notebook and what it has done to the
    outside so far. *)
Record world (B : Type) : Type := mkWorld {
  browser : B;
  requests : list string;        (* URLs handed to [browser.get], oldest first *)
  slept : Z;                     (* seconds spent in [time.sleep] *)
  stdout : list string;          (* lines printed *)
  matches : list (string * bool) (* the result list of the batch cell *)
}.

Arguments mkWorld {B}.
Arguments browser {B}.
Arguments requests {B}.
Arguments slept {B}.
Arguments stdout {B}.
Arguments matches {B}.

Definition M (B A : Type) : Type := world B -> outcome A * world B.

Definition ret {B A : Type} (a : A) : M B A := fun w => (Returned a, w).

Definition bind {B A C : Type} (m : M B A) (k : A -> M B C) : M B C :=
  fun w =>
    match m w with
    | (Returned a, w') => k a w'
    | (Raised, w') => (Raised, w')
    end.

Declare Scope py_scope.
Delimit Scope py_scope with py.

Notation "x <- m ;; k" := (bind m (fun x => k))
  (at level 100, m at next level, right associativity) : py_scope.
Notation "m ;; k" := (bind m (fun _ => k))
  (at level 100, right associativity) : py_scope.

Open Scope py_scope.

Definition base_url : string :=
  "http://bobcat.library.nyu.edu/primo-explore/search?search_scope=all&sortby=rank&vid=NYU&lang=en_US&query=isbn,exact,".

(** The marker the result page shows when the catalog has no record. *)
Definition no_records : string := "No records found".

(** The last two lines of [check_bobcat_isbn]:
    [alert = "No records found" in html.text] and
    [return False if alert else True]. *)
Definition is_found (page_text : string) : bool :=
  let alert := Py.str_in no_records page_text in
  if alert then false else true.

Section Catalog.

Context {lib : IsbnLib} {B : Type} {drv : WebDriver B}.

(** [browser.get(url)]: the request is made whether or not the call
    returns. *)
Definition browser_get (url : string) : M B unit :=
  fun w =>
    let sent := (requests w ++ [url])%list in
    match driver_get url (browser w) with
    | Some b => (Returned tt, mkWorld b sent (slept w) (stdout w) (matches w))
    | None => (Raised, mkWorld (browser w) sent (slept w) (stdout w) (matches w))
    end.

(** [time.sleep(secs)]. *)
Definition time_sleep (secs : Z) : M B unit :=
  fun w =>
    (Returned tt,
     mkWorld (browser w) (requests w) (slept w + secs) (stdout w) (matches w)).

(** [browser.find_element(By.XPATH, "html")] followed by [.text]. *)
Definition html_text : M B string :=
  fun w =>
    match driver_html_text (browser w) with
    | Some text => (Returned text, w)
    | None => (Raised, w)
    end.

(** [print(line)]. *)
Definition print (line : string) : M B unit :=
  fun w =>
    (Returned tt,
     mkWorld (browser w) (requests w) (slept w) (stdout w ++ [line])%list (matches w)).

(** [matches = []]. *)
Definition matches_reset : M B unit :=
  fun w =>
    (Returned tt, mkWorld (browser w) (requests w) (slept w) (stdout w) []).

(** [matches.append(item)]. *)
Definition matches_append (item : string * bool) : M B unit :=
  fun w =>
    (Returned tt,
     mkWorld (browser w) (requests w) (slept w) (stdout w) (matches w ++ [item])%list).

(** The URL chosen by the [if] / [elif] / [else] at the top of
    [check_bobcat_isbn]; [None] is the [else] branch, which returns. *)
Definition query_url (isbn : string) : option string :=
  let valid_isbn := validate_isbn isbn in
  if valid_isbn then Some (base_url ++ isbn)
  else if validate_isbn (pad_isbn isbn) then Some (base_url ++ pad_isbn isbn)
  else None.

(** [def check_bobcat_isbn(isbn)]. *)
Definition check_bobcat_isbn (isbn : string) : M B bool :=
  match query_url isbn with
  | None => ret false
  | Some url =>
      browser_get url ;;
      time_sleep 2 ;;
      text <- html_text ;;
      ret (is_found text)
  end.

(** The line printed for one ISBN. *)
Definition report (isbn : string) (found : bool) : string :=
  "Checking ISBN " ++ isbn ++ ". Result: "
    ++ (if Bool.eqb found true then "Found" else "Not Found").

(** The body of the [for isbn in isbns] loop. *)
Definition batch_step (isbn : string) : M B unit :=
  let isbn := pad_isbn (Py.upper isbn) in
  found <- check_bobcat_isbn isbn ;;
  print (report isbn found) ;;
  matches_append (isbn, found).

Fixpoint for_each (isbns : list string) : M B unit :=
  match isbns with
  | [] => ret tt
  | isbn :: rest => batch_step isbn ;; for_each rest
  end.

(** The batch cell: [matches = []] and the loop. *)
Definition batch (isbns : list string) : M B unit :=
  matches_reset ;; for_each isbns.

End Catalog.

(** ** A scripted browser for concrete runs *)

(** The session shows one page at a time; [site] says what each URL
    answers, [None] being a navigation that raises. *)
Definition scripted (site : string -> option string) : WebDriver string :=
  {| driver_get := fun url _ => site url;
     driver_html_text := fun page => Some page |}.

(** A catalog that holds every book. *)
Definition holds_all : string -> option string :=
  fun _ => Some "Sacred Books of the East".

(** A catalog that holds none. *)
Definition holds_none : string -> option string :=
  fun _ => Some "No records found".

(** A catalog whose page for one URL never loads. *)
Definition fails_on (bad : string) : string -> option string :=
  fun url => if String.eqb url bad then None else Some "Sacred Books of the East".

(** The state of a fresh notebook. *)
Definition fresh {B : Type} (b : B) : world B := mkWorld b [] 0 [] [].

(** A session whose calls always return. *)
Definition reliable {B : Type} (drv : WebDriver B) : Prop :=
  (forall url b, driver_get url b <> None)
  /\ (forall b, driver_html_text b <> None).

(** ** The CSV export *)

(** Python's [csv.writer] as the export cell configures it: the default
    dialect (comma, minimal quoting, doubled quotes, CR LF after each row)
    with the quote character replaced by the apostrophe. *)
Module Csv.

Definition delimiter : ascii := ",".
Definition quotechar : ascii := "'".
Definition cr : ascii := "013".
Definition lf : ascii := "010".
Definition lineterminator : string := String cr (String lf EmptyString).

(** The characters that make the writer quote a field. *)
Definition special (c : ascii) : bool :=
  Ascii.eqb c delimiter || Ascii.eqb c quotechar
  || Ascii.eqb c cr || Ascii.eqb c lf.

Fixpoint needs_quotes (field : string) : bool :=
  match field with
  | EmptyString => false
  | String c rest => special c || needs_quotes rest
  end.

Fixpoint double_quotes (field : string) : string :=
  match field with
  | EmptyString => EmptyString
  | String c rest =>
      if Ascii.eqb c quotechar
      then String quotechar (String quotechar (double_quotes rest))
      else String c (double_quotes rest)
  end.

Definition write_field (field : string) : string :=
  if needs_quotes field
  then String quotechar (double_quotes field ++ String quotechar EmptyString)
  else field.

Fixpoint join (fields : list string) : string :=
  match fields with
  | [] => EmptyString
  | [field] => field
  | field :: rest => field ++ String delimiter (join rest)
  end.

(** [csv_out.writerow(fields)]: the text written for one row.  A row that
    is one empty field is written as an empty pair of quotes. *)
Definition writerow (fields : list string) : string :=
  match fields with
  | [EmptyString] => String quotechar (String quotechar lineterminator)
  | _ => join (map write_field fields) ++ lineterminator
  end.

End Csv.

(** A tuple of [matches] as the writer sees it: each item through [str]. *)
Definition row_of_match (item : string * bool) : list string :=
  [fst item; Py.str_of_bool (snd item)].

Fixpoint writerows (items : list (string * bool)) : string :=
  match items with
  | [] => EmptyString
  | item :: rest => Csv.writerow (row_of_match item) ++ writerows rest
  end.

(** The export cell: what ends up in [matches.csv]. *)
Definition export_csv (items : list (string * bool)) : string :=
  Csv.writerow ["isbn"; "match"] ++ writerows items.

(** Modelled from the spec: the notebook never reads [matches.csv] back,
    so the reader of the round trip is missing from the repository.  It is
    taken to be a CSV reader of the writer's dialect: a field ends at a
    comma, a row at a CR, LF or CR LF; a field that opens with the quote
    character runs to the next single quote character, a doubled one
    standing for itself. *)
Module CsvReader.

Inductive mode : Type :=
| StartRow      (* nothing of the next row read yet *)
| StartField    (* just after a comma *)
| InField       (* inside an unquoted field *)
| InQuoted      (* inside a quoted field *)
| QuoteSeen     (* a quote character inside a quoted field *)
| AfterCr.      (* a row has just ended with CR *)

Definition snoc (field : string) (c : ascii) : string :=
  field ++ String c EmptyString.

Definition is_newline (c : ascii) : bool :=
  Ascii.eqb c Csv.cr || Ascii.eqb c Csv.lf.

(** The reader's state: the rows and the fields of the current row
    completed so far, and the characters of the field being read. *)
Record state : Type := mkState {
  st_mode : mode;
  st_field : string;
  st_row : list string;
  st_rows : list (list string)
}.

Definition end_row (c : ascii) (st : state) : state :=
  mkState (if Ascii.eqb c Csv.cr then AfterCr else StartRow) EmptyString []
    (st_rows st ++ [st_row st ++ [st_field st]])%list.

Definition end_field (st : state) : state :=
  mkState StartField EmptyString (st_row st ++ [st_field st])%list (st_rows st).

Definition add_char (m : mode) (c : ascii) (st : state) : state :=
  mkState m (snoc (st_field st) c) (st_row st) (st_rows st).

Definition set_mode (m : mode) (st : state) : state :=
  mkState m (st_field st) (st_row st) (st_rows st).

(** The first character of a field. *)
Definition open_field (c : ascii) (st : state) : state :=
  if Ascii.eqb c Csv.delimiter then end_field st
  else if Ascii.eqb c Csv.quotechar then set_mode InQuoted st
  else add_char InField c st.

Definition step (st : state) (c : ascii) : state :=
  match st_mode st with
  | StartRow =>
      if is_newline c
      then set_mode (if Ascii.eqb c Csv.cr then AfterCr else StartRow) st
      else open_field c st
  | AfterCr =>
      if is_newline c
      then set_mode (if Ascii.eqb c Csv.cr then AfterCr else StartRow) st
      else open_field c st
  | StartField =>
      if is_newline c then end_row c st else open_field c st
  | InField =>
      if is_newline c then end_row c st
      else if Ascii.eqb c Csv.delimiter then end_field st
      else add_char InField c st
  | InQuoted =>
      if Ascii.eqb c Csv.quotechar then set_mode QuoteSeen st
      else add_char InQuoted c st
  | QuoteSeen =>
      if Ascii.eqb c Csv.quotechar then add_char InQuoted c st
      else if is_newline c then end_row c st
      else if Ascii.eqb c Csv.delimiter then end_field st
      else add_char InField c st
  end.

Fixpoint run (content : string) (st : state) : state :=
  match content with
  | EmptyString => st
  | String c rest => run rest (step st c)
  end.

(** At the end of the text a row still open is closed; a quoted field
    still open is an error. *)
Definition finish (st : state) : option (list (list string)) :=
  match st_mode st with
  | StartRow | AfterCr => Some (st_rows st)
  | InQuoted => None
  | StartField | InField | QuoteSeen =>
      Some (st_rows st ++ [st_row st ++ [st_field st]])%list
  end.

(** What the reader holds when a written field has been consumed. *)
Definition after_field (f : string) (m : mode) (row : list string)
    (rows : list (list string)) : state :=
  if Csv.needs_quotes f then mkState QuoteSeen f row rows
  else match f with
       | EmptyString => mkState m EmptyString row rows
       | String _ _ => mkState InField f row rows
       end.

Definition read_csv (content : string) : option (list (list string)) :=
  finish (run content (mkState StartRow EmptyString [] [])).

Definition bool_of_str (text : string) : option bool :=
  if String.eqb text "True" then Some true
  else if String.eqb text "False" then Some false
  else None.

Definition match_of_row (row : list string) : option (string * bool) :=
  match row with
  | [isbn; found] =>
      match bool_of_str found with
      | Some b => Some (isbn, b)
      | None => None
      end
  | _ => None
  end.

Fixpoint matches_of_rows (rows : list (list string)) : option (list (string * bool)) :=
  match rows with
  | [] => Some []
  | row :: rest =>
      match match_of_row row, matches_of_rows rest with
      | Some item, Some items => Some (item :: items)
      | _, _ => None
      end
  end.

Definition is_header (row : list string) : bool :=
  match row with
  | [a; b] => String.eqb a "isbn" && String.eqb b "match"
  | _ => false
  end.

(** Reading the exported file back: the header row, then one pair a row. *)
Definition read_matches (content : string) : option (list (string * bool)) :=
  match read_csv content with
  | Some (header :: rows) =>
      if is_header header then matches_of_rows rows else None
  | _ => None
  end.

End CsvReader.

(** ** Reading the input file *)

(** Python's [str.splitlines], on characters taken as code points below
    256: the line boundaries are LF, CR, CR LF, VT, FF, FS, GS, RS and NEL;
    the boundaries are not kept, and text after the last boundary is a
    line of its own unless it is empty. *)
Module Lines.

Definition is_break (c : ascii) : bool :=
  let n := nat_of_ascii c in
  ((n =? 10) || (n =? 13) || (n =? 11) || (n =? 12)
   || (n =? 28) || (n =? 29) || (n =? 30) || (n =? 133))%nat.

Fixpoint has_break (s : string) : bool :=
  match s with
  | EmptyString => false
  | String c rest => is_break c || has_break rest
  end.

(** [cur] holds the characters of the line being read; [after_cr] says
    that the last character was a CR, so that an LF now belongs to the
    same boundary. *)
Fixpoint split (s cur : string) (after_cr : bool) : list string :=
  match s with
  | EmptyString =>
      match cur with
      | EmptyString => []
      | String _ _ => [cur]
      end
  | String c rest =>
      if after_cr && Ascii.eqb c "010" then split rest EmptyString false
      else if is_break c then cur :: split rest EmptyString (Ascii.eqb c "013")
      else split rest (cur ++ String c EmptyString) false
  end.

Definition splitlines (s : string) : list string := split s EmptyString false.

(** Lines written out, each one closed by [terminator]. *)
Fixpoint unlines (terminator : string) (lines : list string) : string :=
  match lines with
  | [] => EmptyString
  | line :: rest => line ++ terminator ++ unlines terminator rest
  end.

End Lines.

(** The reading cell: [isbns = f.read().splitlines()], on the text that
    [f.read()] returns. *)
Definition read_isbns (content : string) : list string :=
  Lines.splitlines content.

(** ** Vocabulary for the properties of the batch and of the export *)

Fixpoint every_char (p : ascii -> bool) (s : string) : bool :=
  match s with
  | EmptyString => true
  | String c rest => p c && every_char p rest
  end.

Section Lookups.

Context {lib : IsbnLib}.

(** The inputs the loop asks the catalog about. *)
Definition accepted (raw : string) : bool := validate_isbn (normalize raw).

(** The URL the loop asks for on such an input. *)
Definition lookup_url (raw : string) : string := base_url ++ normalize raw.

End Lookups.

(** The line the loop prints for a pair of [matches]. *)
Definition line_of (item : string * bool) : string :=
  report (fst item) (snd item).

(** A row of the export whose ISBN needs no quoting. *)
Definition plain_row (item : string * bool) : string :=
  fst item ++ "," ++ Py.str_of_bool (snd item) ++ Csv.lineterminator.

Fixpoint plain_rows (items : list (string * bool)) : string :=
  match items with
  | [] => EmptyString
  | item :: rest => plain_row item ++ plain_rows rest
  end.

(** * Properties *)

(** ** Strings *)

Module PyFacts.
Import Py.

Lemma length_repeat_zero (n : nat) :
  String.length (repeat_str "0" n) = n.
Proof.
  induction n as [|n IH]; simpl; [reflexivity | now rewrite IH].
Qed.

Lemma str_mul_nonpos (s : string) (n : Z) :
  n <= 0 -> str_mul s n = EmptyString.
Proof.
  intros Hn. unfold str_mul.
  replace (Z.to_nat n) with O by lia. reflexivity.
Qed.

Lemma length_app (s t : string) :
  String.length (s ++ t) = (String.length s + String.length t)%nat.
Proof.
  induction s as [|c s IH]; simpl; [reflexivity | now rewrite IH].
Qed.

Lemma len_app (s t : string) : len (s ++ t) = len s + len t.
Proof. unfold len. rewrite length_app. lia. Qed.

Lemma len_nonneg (s : string) : 0 <= len s.
Proof. unfold len. lia. Qed.

Lemma len_str_mul_zero (n : Z) : len (str_mul "0" n) = Z.max 0 n.
Proof.
  unfold len, str_mul. rewrite length_repeat_zero. lia.
Qed.

Lemma upper_length (s : string) : String.length (upper s) = String.length s.
Proof.
  induction s as [|c s IH]; simpl; [reflexivity | now rewrite IH].
Qed.

Lemma len_upper (s : string) : len (upper s) = len s.
Proof. unfold len. now rewrite upper_length. Qed.

Lemma upper_app (s t : string) : upper (s ++ t) = upper s ++ upper t.
Proof.
  induction s as [|c s IH]; simpl; [reflexivity | now rewrite IH].
Qed.

Lemma upper_char_idem (c : ascii) : upper_char (upper_char c) = upper_char c.
Proof.
  unfold upper_char. destruct (is_lower c) eqn:Hc.
  - unfold is_lower in Hc.
    apply andb_true_iff in Hc as [Hlo Hhi].
    apply Nat.leb_le in Hlo. apply Nat.leb_le in Hhi.
    assert (Hn : is_lower (ascii_of_nat (nat_of_ascii c - 32)) = false).
    { unfold is_lower. rewrite nat_ascii_embedding by lia.
      apply andb_false_iff. left. apply Nat.leb_gt. lia. }
    now rewrite Hn.
  - now rewrite Hc.
Qed.

Lemma upper_idem (s : string) : upper (upper s) = upper s.
Proof.
  induction s as [|c s IH]; simpl; [reflexivity|].
  now rewrite upper_char_idem, IH.
Qed.

Lemma upper_zeros (n : nat) : upper (repeat_str "0" n) = repeat_str "0" n.
Proof.
  induction n as [|n IH]; simpl; [reflexivity | now rewrite IH].
Qed.

Lemma upper_str_mul_zero (n : Z) : upper (str_mul "0" n) = str_mul "0" n.
Proof. apply upper_zeros. Qed.

End PyFacts.

(** ** Padding and normalisation *)

Section PadFacts.

Context {lib : IsbnLib}.

Lemma pad_isbn_long_clean (s : string) :
  10 <= Py.len (clean s) -> pad_isbn s = s.
Proof.
  intros H. unfold pad_isbn.
  destruct (Z.ltb_spec (Py.len (clean s)) 10); [lia | reflexivity].
Qed.

Lemma pad_isbn_short_clean (s : string) :
  Py.len (clean s) < 10 ->
  pad_isbn s = Py.str_mul "0" (10 - Py.len s) ++ s.
Proof.
  intros H. unfold pad_isbn.
  destruct (Z.ltb_spec (Py.len (clean s)) 10); [reflexivity | lia].
Qed.

Lemma pad_isbn_long_raw (s : string) : 10 <= Py.len s -> pad_isbn s = s.
Proof.
  intros H. unfold pad_isbn.
  destruct (Py.len (clean s) <? 10); [|reflexivity].
  rewrite PyFacts.str_mul_nonpos by lia. reflexivity.
Qed.

(** Whatever the branch, the result is the input behind some zeros. *)
Lemma pad_isbn_zeros (s : string) :
  exists k : nat, pad_isbn s = Py.repeat_str "0" k ++ s.
Proof.
  unfold pad_isbn. destruct (Py.len (clean s) <? 10).
  - now exists (Z.to_nat (10 - Py.len s)).
  - now exists O.
Qed.

Lemma len_pad_isbn_short_clean (s : string) :
  Py.len (clean s) < 10 -> Py.len (pad_isbn s) = Z.max 10 (Py.len s).
Proof.
  intros H. rewrite pad_isbn_short_clean by assumption.
  rewrite PyFacts.len_app, PyFacts.len_str_mul_zero. lia.
Qed.

(** C9: a string of raw length at least 10 comes back unchanged, whatever
    its cleaned length, because the pad count [10 - len(isbn)] is zero or
    negative and ['0'] times such a count is the empty string.
    [pad_isbn] is a total function: no string makes it raise. *)
Theorem pad_isbn_raw_length_10_unchanged (s : string) :
  10 <= Py.len s ->
  10 - Py.len s <= 0
  /\ Py.str_mul "0" (10 - Py.len s) = EmptyString
  /\ pad_isbn s = s.
Proof.
  intros H. split; [lia|]. split.
  - apply PyFacts.str_mul_nonpos. lia.
  - now apply pad_isbn_long_raw.
Qed.

(** C2, amended: [pad_isbn] returns its input when the cleaned length is
    at least 10; when the cleaned length is below 10 and the raw length
    is at most 10 it puts [10 - len(isbn)] zeros in front, which brings
    the result to length 10; a raw length of 9 gets exactly one zero. *)
Theorem pad_isbn_contract (s : string) :
  (10 <= Py.len (clean s) -> pad_isbn s = s)
  /\ (Py.len (clean s) < 10 -> Py.len s <= 10 ->
      pad_isbn s = Py.str_mul "0" (10 - Py.len s) ++ s
      /\ Py.len (Py.str_mul "0" (10 - Py.len s)) = 10 - Py.len s
      /\ Py.len (pad_isbn s) = 10)
  /\ (Py.len (clean s) < 10 -> Py.len s = 9 -> pad_isbn s = "0" ++ s).
Proof.
  split; [apply pad_isbn_long_clean|]. split.
  - intros Hc Hr. split; [now apply pad_isbn_short_clean|]. split.
    + rewrite PyFacts.len_str_mul_zero. lia.
    + rewrite len_pad_isbn_short_clean by assumption. lia.
  - intros Hc Hr. rewrite pad_isbn_short_clean by assumption.
    rewrite Hr. reflexivity.
Qed.

Lemma upper_pad_isbn (s : string) :
  Py.upper s = s -> Py.upper (pad_isbn s) = pad_isbn s.
Proof.
  intros Hs. unfold pad_isbn. destruct (Py.len (clean s) <? 10).
  - now rewrite PyFacts.upper_app, PyFacts.upper_str_mul_zero, Hs.
  - exact Hs.
Qed.

Lemma pad_isbn_idem (s : string) : pad_isbn (pad_isbn s) = pad_isbn s.
Proof.
  destruct (Z.ltb_spec (Py.len (clean s)) 10) as [Hc|Hc].
  - apply pad_isbn_long_raw.
    rewrite len_pad_isbn_short_clean by assumption. lia.
  - rewrite !(pad_isbn_long_clean s Hc). reflexivity.
Qed.

(** C6: normalising twice is normalising once.  This holds for every
    string, so in particular for the canonical ones (upper case and
    already padded). *)
Theorem normalize_idempotent (x : string) :
  normalize (normalize x) = normalize x.
Proof.
  unfold normalize.
  rewrite upper_pad_isbn by apply PyFacts.upper_idem.
  apply pad_isbn_idem.
Qed.

(** A canonical string is a fixed point of the normalisation. *)
Lemma normalize_canonical (x : string) :
  Py.upper x = x -> 10 <= Py.len x -> normalize x = x.
Proof.
  intros Hu Hl. unfold normalize. rewrite Hu. now apply pad_isbn_long_raw.
Qed.

End PadFacts.

(** ** The match evaluator *)

Module SubstringFacts.
Import Py.

Lemma prefix_app (needle hay : string) :
  prefix needle hay = true <-> exists after, hay = needle ++ after.
Proof.
  revert hay. induction needle as [|a needle IH]; intros hay; simpl.
  - split; [intros _; now exists hay | now destruct hay].
  - destruct hay as [|b hay]; simpl.
    + split; [discriminate | intros [after H]; discriminate].
    + destruct (ascii_dec a b) as [->|Hab].
      * rewrite IH. split; intros [after H]; exists after.
        -- now rewrite H.
        -- now inversion H.
      * split; [discriminate|]. intros [after H]. inversion H. congruence.
Qed.

Lemma str_in_occurs (needle hay : string) :
  str_in needle hay = true <-> occurs_in needle hay.
Proof.
  unfold occurs_in. induction hay as [|c hay IH]; cbn [str_in].
  - destruct (prefix needle EmptyString) eqn:Hp.
    + split; [intros _ | reflexivity].
      apply prefix_app in Hp as [after H]. now exists EmptyString, after.
    + split; [discriminate|]. intros (before & after & H).
      destruct before; [|discriminate]. simpl in H.
      assert (Hq : prefix needle EmptyString = true)
        by (apply prefix_app; now exists after).
      congruence.
  - destruct (prefix needle (String c hay)) eqn:Hp.
    + split; [intros _ | reflexivity].
      apply prefix_app in Hp as [after H]. now exists EmptyString, after.
    + rewrite IH. split.
      * intros (before & after & H). exists (String c before), after.
        simpl. now rewrite H.
      * intros (before & after & H). destruct before as [|b before].
        -- simpl in H.
           assert (Hq : prefix needle (String c hay) = true)
             by (apply prefix_app; now exists after).
           congruence.
        -- simpl in H. inversion H. now exists before, after.
Qed.

End SubstringFacts.

(** C5: the evaluator answers [false] on every page text that contains the
    marker [No records found], in particular on the marker itself, and
    [true] on every page text that does not contain it. *)
Theorem is_found_marker (page_text : string) :
  (Py.occurs_in no_records page_text -> is_found page_text = false)
  /\ (~ Py.occurs_in no_records page_text -> is_found page_text = true)
  /\ is_found no_records = false.
Proof.
  unfold is_found. split; [|split].
  - intros H. apply SubstringFacts.str_in_occurs in H. now rewrite H.
  - intros H. destruct (Py.str_in no_records page_text) eqn:Hin; [|reflexivity].
    apply SubstringFacts.str_in_occurs in Hin. contradiction.
  - reflexivity.
Qed.

(** The two answers of the evaluator decide the presence of the marker. *)
Lemma is_found_false_iff (page_text : string) :
  is_found page_text = false <-> Py.occurs_in no_records page_text.
Proof.
  rewrite <- SubstringFacts.str_in_occurs. unfold is_found.
  destruct (Py.str_in no_records page_text); split; congruence.
Qed.

(** ** The lookup and the batch loop *)

Section CatalogFacts.

Context {lib : IsbnLib} {B : Type} {drv : WebDriver B}.

Lemma validate_isbn_or (isbn : string) :
  validate_isbn isbn = is_isbn13 isbn || is_isbn10 isbn.
Proof. unfold validate_isbn. now destruct (is_isbn13 isbn || is_isbn10 isbn). Qed.

Lemma query_url_raw (isbn : string) :
  validate_isbn isbn = true -> query_url isbn = Some (base_url ++ isbn).
Proof. intros H. unfold query_url. now rewrite H. Qed.

Lemma query_url_padded (isbn : string) :
  validate_isbn isbn = false -> validate_isbn (pad_isbn isbn) = true ->
  query_url isbn = Some (base_url ++ pad_isbn isbn).
Proof. intros H1 H2. unfold query_url. now rewrite H1, H2. Qed.

Lemma query_url_none (isbn : string) :
  validate_isbn isbn = false -> validate_isbn (pad_isbn isbn) = false ->
  query_url isbn = None.
Proof. intros H1 H2. unfold query_url. now rewrite H1, H2. Qed.

(** The lookup on the rejecting branch. *)
Lemma check_bobcat_isbn_skip (isbn : string) (w : world B) :
  query_url isbn = None -> check_bobcat_isbn isbn w = (Returned false, w).
Proof. intros H. unfold check_bobcat_isbn. now rewrite H. Qed.

(** The lookup on the two fetching branches, run to the end. *)
Lemma check_bobcat_isbn_fetch (isbn url : string) (w : world B) :
  query_url isbn = Some url ->
  check_bobcat_isbn isbn w =
    match driver_get url (browser w) with
    | None =>
        (Raised,
         mkWorld (browser w) (requests w ++ [url]) (slept w) (stdout w) (matches w))
    | Some b =>
        let w' := mkWorld b (requests w ++ [url]) (slept w + 2) (stdout w) (matches w) in
        match driver_html_text b with
        | None => (Raised, w')
        | Some text => (Returned (is_found text), w')
        end
    end.
Proof.
  intros H. unfold check_bobcat_isbn. rewrite H.
  unfold bind, browser_get, time_sleep, html_text, ret.
  destruct (driver_get url (browser w)) as [b|]; simpl; [|reflexivity].
  destruct (driver_html_text b); reflexivity.
Qed.

Lemma check_bobcat_isbn_requests (isbn : string) (w : world B) :
  requests (snd (check_bobcat_isbn isbn w)) =
    match query_url isbn with
    | Some url => (requests w ++ [url])%list
    | None => requests w
    end.
Proof.
  destruct (query_url isbn) as [url|] eqn:Hq.
  - rewrite (check_bobcat_isbn_fetch _ _ _ Hq).
    destruct (driver_get url (browser w)) as [b|]; simpl; [|reflexivity].
    destruct (driver_html_text b); reflexivity.
  - now rewrite check_bobcat_isbn_skip.
Qed.

Lemma check_bobcat_isbn_matches (isbn : string) (w : world B) :
  matches (snd (check_bobcat_isbn isbn w)) = matches w.
Proof.
  destruct (query_url isbn) as [url|] eqn:Hq.
  - rewrite (check_bobcat_isbn_fetch _ _ _ Hq).
    destruct (driver_get url (browser w)) as [b|]; simpl; [|reflexivity].
    destruct (driver_html_text b); reflexivity.
  - now rewrite check_bobcat_isbn_skip.
Qed.

Lemma check_bobcat_isbn_reliable (isbn : string) (w : world B) :
  reliable drv -> exists found, fst (check_bobcat_isbn isbn w) = Returned found.
Proof.
  intros [Hget Htext]. destruct (query_url isbn) as [url|] eqn:Hq.
  - rewrite (check_bobcat_isbn_fetch _ _ _ Hq).
    destruct (driver_get url (browser w)) as [b|] eqn:Hg; [|now apply Hget in Hg].
    simpl. destruct (driver_html_text b) as [text|] eqn:Ht; [|now apply Htext in Ht].
    now exists (is_found text).
  - rewrite check_bobcat_isbn_skip by assumption. now exists false.
Qed.

(** C4: an ISBN that fails validation both as given and padded makes the
    lookup return [False] with the state untouched: no request, no
    exception.  An ISBN that passes in either form makes the lookup hand
    exactly one URL to the browser, whether or not the browser then
    raises and whatever the page says. *)
Theorem check_bobcat_isbn_fetches (isbn : string) (w : world B) :
  (validate_isbn isbn = false -> validate_isbn (pad_isbn isbn) = false ->
   check_bobcat_isbn isbn w = (Returned false, w))
  /\ (validate_isbn isbn = true \/ validate_isbn (pad_isbn isbn) = true ->
      exists url,
        requests (snd (check_bobcat_isbn isbn w)) = (requests w ++ [url])%list
        /\ (url = base_url ++ isbn \/ url = base_url ++ pad_isbn isbn)).
Proof.
  split.
  - intros H1 H2. apply check_bobcat_isbn_skip. now apply query_url_none.
  - intros H. rewrite check_bobcat_isbn_requests.
    destruct (validate_isbn isbn) eqn:H1.
    + rewrite query_url_raw by assumption. eauto.
    + destruct H as [H|H]; [discriminate|].
      rewrite query_url_padded by assumption. eauto.
Qed.

End CatalogFacts.

Lemma map_fst_combine {A C : Type} (l : list A) (l' : list C) :
  List.length l' = List.length l -> map fst (combine l l') = l.
Proof.
  revert l'. induction l as [|a l IH]; intros [|c l'] H; simpl in *;
    try discriminate; [reflexivity|].
  f_equal. apply IH. lia.
Qed.

Section BatchFacts.

Context {lib : IsbnLib} {B : Type} {drv : WebDriver B}.

(** One turn of the loop: the lookup, and when it returns, one printed
    line and one pair appended. *)
Lemma batch_step_run (raw : string) (w : world B) :
  batch_step raw w =
    match check_bobcat_isbn (normalize raw) w with
    | (Returned found, w1) =>
        (Returned tt,
         mkWorld (browser w1) (requests w1) (slept w1)
           (stdout w1 ++ [report (normalize raw) found])
           (matches w1 ++ [(normalize raw, found)]))
    | (Raised, w1) => (Raised, w1)
    end.
Proof.
  unfold batch_step, bind, normalize.
  destruct (check_bobcat_isbn (pad_isbn (Py.upper raw)) w) as [[found|] w1];
    reflexivity.
Qed.

Lemma batch_step_matches (raw : string) (w : world B) :
  match fst (batch_step raw w) with
  | Returned _ =>
      exists found,
        matches (snd (batch_step raw w)) = (matches w ++ [(normalize raw, found)])%list
  | Raised => matches (snd (batch_step raw w)) = matches w
  end.
Proof.
  rewrite batch_step_run.
  pose proof (check_bobcat_isbn_matches (normalize raw) w) as Hm.
  destruct (check_bobcat_isbn (normalize raw) w) as [[found|] w1]; simpl in *.
  - exists found. now rewrite Hm.
  - exact Hm.
Qed.

Lemma for_each_cons (raw : string) (rest : list string) (w : world B) :
  for_each (raw :: rest) w =
    match batch_step raw w with
    | (Returned _, w1) => for_each rest w1
    | (Raised, w1) => (Raised, w1)
    end.
Proof. reflexivity. Qed.

Lemma for_each_app (done rest : list string) (w : world B) :
  for_each (done ++ rest) w =
    match for_each done w with
    | (Returned _, w1) => for_each rest w1
    | (Raised, w1) => (Raised, w1)
    end.
Proof.
  revert w. induction done as [|raw done IH]; intros w.
  - reflexivity.
  - simpl app. rewrite !for_each_cons.
    destruct (batch_step raw w) as [[u|] w1]; [apply IH | reflexivity].
Qed.

(** The loop invariant: the result list grows at its end by one pair per
    ISBN processed, in the order of the input. *)
Lemma for_each_matches (isbns : list string) (w : world B) :
  exists founds : list bool,
    (List.length founds <= List.length isbns)%nat
    /\ matches (snd (for_each isbns w)) =
         (matches w ++ combine (map normalize isbns) founds)%list
    /\ (fst (for_each isbns w) = Returned tt <->
        List.length founds = List.length isbns).
Proof.
  revert w. induction isbns as [|raw rest IH]; intros w.
  - exists []. simpl. rewrite app_nil_r. repeat split; auto.
  - rewrite for_each_cons.
    pose proof (batch_step_matches raw w) as Hstep.
    destruct (batch_step raw w) as [[u|] w1]; simpl in Hstep.
    + destruct Hstep as [found Hm].
      destruct (IH w1) as (founds & Hlen & Hms & Hret).
      exists (found :: founds). simpl. split; [lia|]. split.
      * rewrite Hms, Hm, <- app_assoc. reflexivity.
      * rewrite Hret. split; lia.
    + exists []. simpl. rewrite app_nil_r. split; [lia|]. split; [assumption|].
      split; [discriminate | lia].
Qed.

Lemma for_each_reliable (isbns : list string) (w : world B) :
  reliable drv -> fst (for_each isbns w) = Returned tt.
Proof.
  intros Hrel. revert w. induction isbns as [|raw rest IH]; intros w.
  - reflexivity.
  - rewrite for_each_cons, batch_step_run.
    destruct (check_bobcat_isbn_reliable (normalize raw) w Hrel) as [found Hf].
    destruct (check_bobcat_isbn (normalize raw) w) as [[found'|] w1];
      simpl in Hf; [apply IH | discriminate].
Qed.

Lemma batch_run (isbns : list string) (w : world B) :
  batch isbns w =
    for_each isbns (mkWorld (browser w) (requests w) (slept w) (stdout w) []).
Proof. reflexivity. Qed.

(** C7: the batch cell leaves in [matches] one pair per ISBN it has
    processed, the i-th pair carrying the normalised i-th input; when the
    cell returns that is one pair for every input, and it returns
    whenever the browser calls do.  A pair once appended stays: the list
    after a longer run extends the list after any shorter run. *)
Theorem batch_results_in_order (isbns : list string) (w : world B) :
  (exists founds : list bool,
      (List.length founds <= List.length isbns)%nat
      /\ matches (snd (batch isbns w)) = combine (map normalize isbns) founds
      /\ (fst (batch isbns w) = Returned tt <->
          List.length founds = List.length isbns))
  /\ (reliable drv ->
      fst (batch isbns w) = Returned tt
      /\ map fst (matches (snd (batch isbns w))) = map normalize isbns)
  /\ (forall done rest : list string,
         isbns = (done ++ rest)%list ->
         exists later : list (string * bool),
           matches (snd (batch isbns w)) =
             (matches (snd (batch done w)) ++ later)%list
           /\ (List.length later <= List.length rest)%nat).
Proof.
  rewrite batch_run.
  set (w0 := mkWorld (browser w) (requests w) (slept w) (stdout w) []).
  split; [|split].
  - destruct (for_each_matches isbns w0) as (founds & Hlen & Hms & Hret).
    exists founds. auto.
  - intros Hrel.
    pose proof (for_each_reliable isbns w0 Hrel) as Hok.
    split; [assumption|].
    destruct (for_each_matches isbns w0) as (founds & Hlen & Hms & Hret).
    rewrite Hms. simpl. apply Hret in Hok.
    apply map_fst_combine. now rewrite length_map.
  - intros done rest ->. rewrite batch_run. fold w0. rewrite for_each_app.
    destruct (for_each done w0) as [[u|] w1]; simpl.
    + destruct (for_each_matches rest w1) as (founds & Hlen & Hms & _).
      exists (combine (map normalize rest) founds). split; [exact Hms|].
      rewrite length_combine, length_map. lia.
    + exists []. rewrite app_nil_r. simpl. split; [reflexivity | lia].
Qed.

End BatchFacts.

(** ** The modelled ISBN checks against the written-out rules *)

Module IsbnSpecFacts.
Import IsbnSpec.

Lemma digit_cases (d : Z) :
  is_digit d ->
  d = 0 \/ d = 1 \/ d = 2 \/ d = 3 \/ d = 4 \/ d = 5 \/ d = 6 \/ d = 7
  \/ d = 8 \/ d = 9.
Proof. unfold is_digit. lia. Qed.

Lemma digit_value_char (d : Z) :
  is_digit d -> digit_value (digit_char d) = Some d.
Proof.
  intros H. apply digit_cases in H.
  repeat (destruct H as [->|H]; [reflexivity|]). now subst.
Qed.

Lemma digit_value_inv (c : ascii) (d : Z) :
  digit_value c = Some d -> is_digit d /\ c = digit_char d.
Proof.
  unfold digit_value, is_digit, digit_char.
  destruct ((48 <=? nat_of_ascii c) && (nat_of_ascii c <=? 57))%nat eqn:Hc;
    [|discriminate].
  apply andb_true_iff in Hc as [Hlo Hhi].
  apply Nat.leb_le in Hlo. apply Nat.leb_le in Hhi.
  intros H. inversion H; subst d. split; [lia|].
  rewrite Nat2Z.id.
  replace (48 + (nat_of_ascii c - 48))%nat with (nat_of_ascii c) by lia.
  now rewrite ascii_nat_embedding.
Qed.

Lemma check_value_char (d : Z) :
  0 <= d <= 10 -> check_value (check_char d) = Some d.
Proof.
  intros H.
  assert (Hd : is_digit d \/ d = 10) by (unfold is_digit; lia).
  destruct Hd as [Hd| ->]; [|reflexivity].
  apply digit_cases in Hd.
  repeat (destruct Hd as [->|Hd]; [reflexivity|]). now subst.
Qed.

Lemma check_value_inv (c : ascii) (d : Z) :
  check_value c = Some d -> 0 <= d <= 10 /\ c = check_char d.
Proof.
  unfold check_value. destruct (Ascii.eqb c "X") eqn:Hx.
  - apply Ascii.eqb_eq in Hx. intros H. inversion H; subst. split; [lia|].
    reflexivity.
  - intros H. apply digit_value_inv in H as [Hd ->]. unfold is_digit in Hd.
    split; [lia|]. unfold check_char.
    destruct (Z.eqb_spec d 10); [lia | reflexivity].
Qed.

Lemma digits_chars (ds : list Z) :
  Forall is_digit ds -> digits (chars (map digit_char ds)) = Some ds.
Proof.
  induction 1 as [|d ds Hd _ IH]; [reflexivity|].
  unfold chars in *. cbn [map fold_right digits].
  now rewrite digit_value_char, IH.
Qed.

Lemma digits_inv (t : string) (ds : list Z) :
  digits t = Some ds -> t = chars (map digit_char ds) /\ Forall is_digit ds.
Proof.
  revert ds. induction t as [|c t IH]; intros ds; simpl.
  - intros H. inversion H. split; [reflexivity | constructor].
  - destruct (digit_value c) as [d|] eqn:Hc; [|discriminate].
    destruct (digits t) as [ds'|]; [|discriminate].
    intros H. inversion H; subst ds.
    apply digit_value_inv in Hc as [Hd ->].
    destruct (IH ds' eq_refl) as [-> Hall].
    split; [reflexivity | now constructor].
Qed.

Lemma digits_x_cons (c c' : ascii) (t : string) :
  digits_x (String c (String c' t)) =
    match digit_value c, digits_x (String c' t) with
    | Some d, Some ds => Some (d :: ds)
    | _, _ => None
    end.
Proof. reflexivity. Qed.

Lemma digits_x_chars (init : list Z) (last : Z) :
  Forall is_digit init -> 0 <= last <= 10 ->
  digits_x (chars (map digit_char init ++ [check_char last])) =
    Some (init ++ [last])%list.
Proof.
  intros Hall Hlast. induction Hall as [|d init Hd Hall IH].
  - unfold chars. cbn [map app fold_right digits_x].
    now rewrite check_value_char.
  - change (chars (map digit_char (d :: init) ++ [check_char last]))
      with (String (digit_char d)
              (chars (map digit_char init ++ [check_char last]))).
    destruct (chars (map digit_char init ++ [check_char last])) as [|c' t'] eqn:Ht.
    + destruct init; discriminate.
    + rewrite digits_x_cons, digit_value_char, IH by assumption.
      reflexivity.
Qed.

Lemma digits_x_inv (t : string) (ds : list Z) :
  digits_x t = Some ds ->
  (t = EmptyString /\ ds = [])
  \/ exists init last,
       ds = (init ++ [last])%list
       /\ t = chars (map digit_char init ++ [check_char last])
       /\ Forall is_digit init /\ 0 <= last <= 10.
Proof.
  revert ds. induction t as [|c t IH]; intros ds H.
  - left. inversion H. auto.
  - right. destruct t as [|c' t'].
    + cbn [digits_x] in H.
      destruct (check_value c) as [d|] eqn:Hc; [|discriminate].
      inversion H; subst ds. apply check_value_inv in Hc as [Hd ->].
      exists [], d. repeat split; auto; lia.
    + rewrite digits_x_cons in H.
      destruct (digit_value c) as [d|] eqn:Hc; [|discriminate].
      destruct (digits_x (String c' t')) as [ds'|] eqn:Hrest; [|discriminate].
      inversion H; subst ds. apply digit_value_inv in Hc as [Hd ->].
      destruct (IH ds' eq_refl) as [[Habs _]|(init & last & -> & Ht & Hall & Hlast)];
        [discriminate|].
      exists (d :: init), last. rewrite Ht.
      repeat split; auto; lia.
Qed.

Ltac same_mod :=
  match goal with
  | |- ?a mod ?m = ?b mod ?m => replace a with b by lia; reflexivity
  end.

Lemma is_isbn13_iff (s : string) :
  is_isbn13 s = true <-> Isbn13 (clean s).
Proof.
  unfold is_isbn13, Isbn13. split.
  - destruct (digits (clean s)) as [ds|] eqn:Hds; [|discriminate].
    intros H. apply andb_true_iff in H as [Hlen Hsum].
    apply Nat.eqb_eq in Hlen. apply Z.eqb_eq in Hsum.
    apply digits_inv in Hds as [Hs Hall].
    do 13 (destruct ds as [|? ds]; [discriminate|]).
    destruct ds; [|discriminate].
    do 13 eexists. split; [exact Hs|]. split; [exact Hall|].
    cbn [sum13 negb] in Hsum. rewrite <- Hsum.
    same_mod.
  - intros (d1 & d2 & d3 & d4 & d5 & d6 & d7 & d8 & d9 & d10 & d11 & d12
            & d13 & Hs & Hall & Hsum).
    rewrite Hs, digits_chars by assumption.
    apply andb_true_iff. split; [reflexivity|]. apply Z.eqb_eq.
    cbn [sum13 negb]. rewrite <- Hsum.
    same_mod.
Qed.

Lemma is_isbn10_iff (s : string) :
  is_isbn10 s = true <-> Isbn10 (clean s).
Proof.
  unfold is_isbn10, Isbn10. split.
  - destruct (digits_x (clean s)) as [ds|] eqn:Hds; [|discriminate].
    intros H. apply andb_true_iff in H as [Hlen Hsum].
    apply Nat.eqb_eq in Hlen. apply Z.eqb_eq in Hsum.
    apply digits_x_inv in Hds
      as [[_ ->]|(init & last & -> & Hs & Hall & Hlast)]; [discriminate|].
    rewrite length_app in Hlen. cbn [List.length] in Hlen.
    do 9 (destruct init as [|? init]; [discriminate|]).
    destruct init; [|cbn [List.length] in Hlen; lia].
    do 10 eexists. split; [exact Hs|]. split; [exact Hall|].
    split; [exact Hlast|].
    cbn [sum10 app] in Hsum. rewrite <- Hsum.
    same_mod.
  - intros (d1 & d2 & d3 & d4 & d5 & d6 & d7 & d8 & d9 & d10
            & Hs & Hall & Hlast & Hsum).
    rewrite Hs, digits_x_chars by assumption.
    apply andb_true_iff. split; [reflexivity|]. apply Z.eqb_eq.
    cbn [sum10 app]. rewrite <- Hsum.
    same_mod.
Qed.

Lemma clean_idem (s : string) : clean (clean s) = clean s.
Proof.
  induction s as [|c s IH]; [reflexivity|]. cbn [clean].
  destruct (is_separator c) eqn:Hc; [exact IH|].
  cbn [clean]. now rewrite Hc, IH.
Qed.

Lemma validate_isbn_checks (s : string) :
  validate_isbn (lib := lib) s = is_isbn13 s || is_isbn10 s.
Proof. exact (validate_isbn_or (lib := lib) s). Qed.

(** The checks do not see hyphens and spaces. *)
Lemma validate_isbn_clean (s : string) :
  validate_isbn (lib := lib) (clean s) = validate_isbn (lib := lib) s.
Proof.
  rewrite !validate_isbn_checks. unfold is_isbn13, is_isbn10.
  now rewrite clean_idem.
Qed.

(** C3: in the model of the two isbnlib checks, [validate_isbn] answers
    [True] exactly on the strings whose cleaned form (hyphens and spaces
    dropped) obeys the ISBN-13 rule or the ISBN-10 rule; in particular it
    answers [True] on every valid ISBN-13. *)
Theorem validate_isbn_checksum_rules (s : string) :
  (validate_isbn (lib := lib) s = true <-> Isbn13 (clean s) \/ Isbn10 (clean s))
  /\ (Isbn13 (clean s) -> validate_isbn (lib := lib) s = true).
Proof.
  rewrite validate_isbn_checks, orb_true_iff, is_isbn13_iff, is_isbn10_iff.
  split; [reflexivity | auto].
Qed.

End IsbnSpecFacts.


(** ** Hyphens and spaces *)

Module SeparatorFacts.
Import Py IsbnSpec.

Lemma lower_not_separator (c : ascii) :
  is_lower c = true ->
  is_separator c = false /\ is_separator (upper_char c) = false.
Proof.
  intros Hc. unfold upper_char. rewrite Hc. unfold is_lower in Hc.
  apply andb_true_iff in Hc as [Hlo Hhi].
  apply Nat.leb_le in Hlo. apply Nat.leb_le in Hhi.
  unfold is_separator. split; apply orb_false_iff; split;
    apply Ascii.eqb_neq; intros Heq;
    apply (f_equal nat_of_ascii) in Heq;
    rewrite ?nat_ascii_embedding in Heq by lia;
    cbn in Heq; lia.
Qed.

Lemma is_separator_upper_char (c : ascii) :
  is_separator (upper_char c) = is_separator c.
Proof.
  destruct (is_lower c) eqn:Hc.
  - destruct (lower_not_separator c Hc) as [H1 H2]. now rewrite H1, H2.
  - unfold upper_char. now rewrite Hc.
Qed.

Lemma separator_upper_char (c : ascii) :
  is_separator c = true -> upper_char c = c.
Proof.
  intros Hs. unfold upper_char. destruct (is_lower c) eqn:Hc; [|reflexivity].
  destruct (lower_not_separator c Hc) as [H1 _]. congruence.
Qed.

Lemma separators_upper (s : string) : separators (upper s) = separators s.
Proof.
  induction s as [|c s IH]; [reflexivity|]. cbn [upper separators].
  rewrite is_separator_upper_char, IH.
  destruct (is_separator c) eqn:Hc; [|reflexivity].
  now rewrite separator_upper_char.
Qed.

Lemma separators_app (s t : string) :
  separators (s ++ t) = separators s ++ separators t.
Proof.
  induction s as [|c s IH]; [reflexivity|]. cbn [append separators].
  rewrite IH. now destruct (is_separator c).
Qed.

Lemma separators_zeros (k : nat) : separators (repeat_str "0" k) = EmptyString.
Proof. induction k as [|k IH]; [reflexivity | exact IH]. Qed.

Lemma separators_normalize {lib : IsbnLib} (s : string) :
  separators (normalize s) = separators s.
Proof.
  unfold normalize. destruct (pad_isbn_zeros (upper s)) as [k ->].
  now rewrite separators_app, separators_zeros, separators_upper.
Qed.

End SeparatorFacts.

(** C10: normalisation only changes letter case and puts zeros in front,
    so every hyphen and space of the input is still there, in the same
    order; the modelled checks give the same answer on a string and on its
    cleaned form; and an ISBN that passes validation as given is looked up
    under the base URL followed by that very string. *)
Theorem hyphens_and_spaces_kept
    (lib : IsbnLib) (B : Type) (drv : WebDriver B) (isbn : string) (w : world B) :
  (exists k : nat, normalize isbn = Py.repeat_str "0" k ++ Py.upper isbn)
  /\ IsbnSpec.separators (normalize isbn) = IsbnSpec.separators isbn
  /\ validate_isbn (lib := IsbnSpec.lib) isbn
     = validate_isbn (lib := IsbnSpec.lib) (IsbnSpec.clean isbn)
  /\ (validate_isbn isbn = true ->
      query_url isbn = Some (base_url ++ isbn)
      /\ requests (snd (check_bobcat_isbn isbn w))
         = (requests w ++ [(base_url ++ isbn)%string])%list).
Proof.
  split; [apply pad_isbn_zeros|].
  split; [apply SeparatorFacts.separators_normalize|].
  split; [symmetry; apply IsbnSpecFacts.validate_isbn_clean|].
  intros Hv. split; [now apply query_url_raw|].
  now rewrite check_bobcat_isbn_requests, query_url_raw.
Qed.

(** ** The CSV export read back *)

Module CsvFacts.
Import Csv CsvReader.

Lemma append_assoc (a b c : string) : (a ++ b) ++ c = a ++ (b ++ c).
Proof. induction a as [|x a IH]; [reflexivity|]. cbn [append]. now rewrite IH. Qed.

Lemma append_empty (a : string) : a ++ EmptyString = a.
Proof. induction a as [|x a IH]; [reflexivity|]. cbn [append]. now rewrite IH. Qed.

Lemma run_app (a b : string) (st : state) : run (a ++ b) st = run b (run a st).
Proof. revert st. induction a as [|x a IH]; intros st; [reflexivity | apply IH]. Qed.

Lemma special_false (c : ascii) :
  special c = false ->
  Ascii.eqb c delimiter = false /\ Ascii.eqb c quotechar = false
  /\ is_newline c = false.
Proof.
  unfold special, is_newline. intros H.
  apply orb_false_iff in H as [H Hlf]. apply orb_false_iff in H as [H Hcr].
  apply orb_false_iff in H as [Hd Hq]. now rewrite Hd, Hq, Hcr, Hlf.
Qed.

(** An unquoted field is read character by character. *)
Lemma run_plain (f field : string) (row : list string) (rows : list (list string)) :
  needs_quotes f = false ->
  run f (mkState InField field row rows) = mkState InField (field ++ f) row rows.
Proof.
  revert field. induction f as [|c f IH]; intros field Hf.
  - now rewrite append_empty.
  - cbn [needs_quotes] in Hf. apply orb_false_iff in Hf as [Hc Hf].
    apply special_false in Hc as (Hd & Hq & Hn).
    cbn [run]. unfold step. cbn [st_mode]. rewrite Hn, Hd.
    unfold add_char, snoc. cbn [st_field st_row st_rows].
    rewrite IH by assumption. now rewrite append_assoc.
Qed.

(** Inside the quotes every character is kept, a doubled quote as one. *)
Lemma run_quoted (f field : string) (row : list string) (rows : list (list string)) :
  run (double_quotes f) (mkState InQuoted field row rows)
  = mkState InQuoted (field ++ f) row rows.
Proof.
  revert field. induction f as [|c f IH]; intros field.
  - now rewrite append_empty.
  - cbn [double_quotes]. destruct (Ascii.eqb c quotechar) eqn:Hq.
    + apply Ascii.eqb_eq in Hq. subst c. cbn [run].
      change (step (step (mkState InQuoted field row rows) quotechar) quotechar)
        with (mkState InQuoted (snoc field quotechar) row rows).
      rewrite IH. unfold snoc. now rewrite append_assoc.
    + cbn [run]. unfold step. cbn [st_mode]. rewrite Hq.
      unfold add_char, snoc. cbn [st_field st_row st_rows].
      rewrite IH. now rewrite append_assoc.
Qed.

Lemma run_write_field (f : string) (m : mode) (row : list string)
    (rows : list (list string)) :
  m = StartRow \/ m = StartField ->
  run (write_field f) (mkState m EmptyString row rows) = after_field f m row rows.
Proof.
  intros Hm. unfold write_field, after_field.
  destruct (needs_quotes f) eqn:Hf.
  - cbn [run].
    assert (Hopen : step (mkState m EmptyString row rows) quotechar
                    = mkState InQuoted EmptyString row rows)
      by (destruct Hm as [-> | ->]; reflexivity).
    rewrite Hopen, run_app, run_quoted. reflexivity.
  - destruct f as [|c f]; [reflexivity|].
    cbn [needs_quotes] in Hf. apply orb_false_iff in Hf as [Hc Hf].
    apply special_false in Hc as (Hd & Hq & Hn). cbn [run].
    assert (Hopen : step (mkState m EmptyString row rows) c
                    = mkState InField (String c EmptyString) row rows).
    { destruct Hm as [-> | ->]; unfold step, open_field; cbn [st_mode];
        rewrite Hn, Hd, Hq; reflexivity. }
    rewrite Hopen, run_plain by assumption. reflexivity.
Qed.

Lemma step_after_field_delimiter (f : string) (m : mode) (row : list string)
    (rows : list (list string)) :
  m = StartRow \/ m = StartField ->
  step (after_field f m row rows) delimiter
  = mkState StartField EmptyString (row ++ [f])%list rows.
Proof.
  intros Hm. unfold after_field. destruct (needs_quotes f); [reflexivity|].
  destruct f; [|reflexivity]. destruct Hm as [-> | ->]; reflexivity.
Qed.

Lemma run_after_field_eol (f : string) (row : list string)
    (rows : list (list string)) :
  run lineterminator (after_field f StartField row rows)
  = mkState StartRow EmptyString [] (rows ++ [row ++ [f]])%list.
Proof.
  unfold after_field. destruct (needs_quotes f); [reflexivity|].
  destruct f; reflexivity.
Qed.

Lemma writerow_pair (a b : string) :
  writerow [a; b] = write_field a ++ String delimiter (write_field b ++ lineterminator).
Proof.
  unfold writerow. cbn [map join].
  destruct a; now rewrite append_assoc.
Qed.

(** One written row of two fields is read as that row. *)
Lemma run_writerow (a b : string) (rows : list (list string)) :
  run (writerow [a; b]) (mkState StartRow EmptyString [] rows)
  = mkState StartRow EmptyString [] (rows ++ [[a; b]])%list.
Proof.
  rewrite writerow_pair, run_app, run_write_field by auto.
  cbn [run]. rewrite step_after_field_delimiter by auto.
  rewrite run_app, run_write_field by auto.
  apply run_after_field_eol.
Qed.

Lemma run_writerows (items : list (string * bool)) (rows : list (list string)) :
  run (writerows items) (mkState StartRow EmptyString [] rows)
  = mkState StartRow EmptyString [] (rows ++ map row_of_match items)%list.
Proof.
  revert rows. induction items as [|item items IH]; intros rows.
  - cbn. now rewrite app_nil_r.
  - cbn [writerows map]. unfold row_of_match at 1.
    rewrite run_app, run_writerow, IH, <- app_assoc. reflexivity.
Qed.

Lemma read_csv_export (items : list (string * bool)) :
  read_csv (export_csv items) = Some (["isbn"; "match"] :: map row_of_match items).
Proof.
  unfold read_csv, export_csv.
  rewrite run_app, run_writerow, run_writerows. reflexivity.
Qed.

Lemma bool_of_str_of_bool (b : bool) : bool_of_str (Py.str_of_bool b) = Some b.
Proof. now destruct b. Qed.

Lemma matches_of_rows_of_matches (items : list (string * bool)) :
  matches_of_rows (map row_of_match items) = Some items.
Proof.
  induction items as [|[isbn found] items IH]; [reflexivity|].
  cbn [map matches_of_rows]. rewrite IH.
  unfold row_of_match, match_of_row. cbn [fst snd].
  now rewrite bool_of_str_of_bool.
Qed.

(** Every result list survives the export and the reading back. *)
Lemma read_matches_export (items : list (string * bool)) :
  read_matches (export_csv items) = Some items.
Proof.
  unfold read_matches. rewrite read_csv_export.
  cbn [is_header]. apply matches_of_rows_of_matches.
Qed.

End CsvFacts.

(** C8: the export of the one result [('9781781792834', True)] is the
    header row [isbn,match] and the row [9781781792834,True], each closed
    by CR LF and neither needing the quote character; read back by a CSV
    reader of the same dialect it gives the same pair again. *)
Theorem export_csv_round_trip :
  export_csv [("9781781792834", true)]
  = "isbn,match" ++ Csv.lineterminator
    ++ "9781781792834,True" ++ Csv.lineterminator
  /\ CsvReader.read_csv (export_csv [("9781781792834", true)])
     = Some [["isbn"; "match"]; ["9781781792834"; "True"]]
  /\ CsvReader.read_matches (export_csv [("9781781792834", true)])
     = Some [("9781781792834", true)].
Proof.
  split; [reflexivity|]. split; [reflexivity|].
  apply CsvFacts.read_matches_export.
Qed.

(** ** Runs on concrete inputs *)

Lemma scripted_reliable (page : string) :
  reliable (scripted (fun _ => Some page)).
Proof. split; intros; discriminate. Qed.

(** C1, as stated, fails: padded to [0123456789] the input passes the
    ISBN-10 check (10*0 + 9*1 + ... + 1*9 = 165 = 11 * 15), so the batch
    cell does ask the catalog, once, and records what the page says. *)
Lemma batch_123456789_is_looked_up :
  IsbnSpec.is_isbn10 "0123456789" = true
  /\ IsbnSpec.sum10 [0; 1; 2; 3; 4; 5; 6; 7; 8; 9] 10 = 11 * 15
  /\ requests (snd (batch (lib := IsbnSpec.lib) (drv := scripted holds_all)
                      ["123456789"] (fresh EmptyString)))
     = [base_url ++ "0123456789"]
  /\ matches (snd (batch (lib := IsbnSpec.lib) (drv := scripted holds_all)
                     ["123456789"] (fresh EmptyString)))
     = [("0123456789", true)]
  /\ matches (snd (batch (lib := IsbnSpec.lib) (drv := scripted holds_all)
                     ["123456789"] (fresh EmptyString)))
     <> [("0123456789", false)]
  /\ requests (snd (batch (lib := IsbnSpec.lib) (drv := scripted holds_none)
                      ["123456789"] (fresh EmptyString)))
     = [base_url ++ "0123456789"]
  /\ requests (snd (batch (lib := IsbnSpec.lib) (drv := scripted holds_none)
                      ["123456789"] (fresh EmptyString)))
     <> [].
Proof. vm_compute. repeat split; discriminate. Qed.

(** C1, amended: for the input [123456789] the batch cell normalises to
    [0123456789], which passes the ISBN-10 check; it hands exactly one URL,
    the base URL followed by [0123456789], to the browser, and when the
    browser calls return it records [0123456789] with the evaluator's
    answer on the page text. *)
Theorem batch_123456789
    (B : Type) (drv : WebDriver B) (w : world B) :
  normalize (lib := IsbnSpec.lib) "123456789" = "0123456789"
  /\ validate_isbn (lib := IsbnSpec.lib) "0123456789" = true
  /\ requests (snd (batch (lib := IsbnSpec.lib) ["123456789"] w))
     = (requests w ++ [(base_url ++ "0123456789")%string])%list
  /\ match driver_get (base_url ++ "0123456789") (browser w) with
     | Some b =>
         match driver_html_text b with
         | Some text =>
             fst (batch (lib := IsbnSpec.lib) ["123456789"] w) = Returned tt
             /\ matches (snd (batch (lib := IsbnSpec.lib) ["123456789"] w))
                = [("0123456789", is_found text)]
         | None =>
             fst (batch (lib := IsbnSpec.lib) ["123456789"] w) = Raised
             /\ matches (snd (batch (lib := IsbnSpec.lib) ["123456789"] w)) = []
         end
     | None =>
         fst (batch (lib := IsbnSpec.lib) ["123456789"] w) = Raised
         /\ matches (snd (batch (lib := IsbnSpec.lib) ["123456789"] w)) = []
     end.
Proof.
  assert (Hn : normalize (lib := IsbnSpec.lib) "123456789" = "0123456789")
    by reflexivity.
  assert (Hq : query_url (lib := IsbnSpec.lib) "0123456789"
               = Some (base_url ++ "0123456789")) by reflexivity.
  split; [exact Hn|]. split; [reflexivity|].
  rewrite batch_run, for_each_cons, batch_step_run, Hn.
  rewrite (check_bobcat_isbn_fetch _ _ _ Hq). cbn [browser requests matches].
  destruct (driver_get (base_url ++ "0123456789") (browser w)) as [b|];
    [|now cbn].
  destruct (driver_html_text b) as [text|]; now cbn.
Qed.

(** C2, as stated, fails on strings that are shorter cleaned than raw:
    with a cleaned length of 9 and a raw length of 10 or more, nothing is
    put in front, and the result is as long as the input. *)
Lemma pad_isbn_cleaned_9_unpadded :
  Py.len (clean (IsbnLib := IsbnSpec.lib) "1-2345-678-9") = 9
  /\ pad_isbn (lib := IsbnSpec.lib) "1-2345-678-9" = "1-2345-678-9"
  /\ Py.len (pad_isbn (lib := IsbnSpec.lib) "1-2345-678-9") = 12
  /\ pad_isbn (lib := IsbnSpec.lib) "1-2345-678-9" <> "0" ++ "1-2345-678-9"
  /\ Py.len (pad_isbn (lib := IsbnSpec.lib) "1-2345-678-9") <> 10
  /\ Py.len (clean (IsbnLib := IsbnSpec.lib) " 123456789") = 9
  /\ pad_isbn (lib := IsbnSpec.lib) " 123456789" = " 123456789"
  /\ pad_isbn (lib := IsbnSpec.lib) " 123456789" <> "0" ++ " 123456789".
Proof. vm_compute. repeat split; discriminate. Qed.

(** The three cases of the contract on inputs of the notebook's kind. *)
Lemma pad_isbn_contract_witness :
  pad_isbn (lib := IsbnSpec.lib) "9781781792834" = "9781781792834"
  /\ pad_isbn (lib := IsbnSpec.lib) "1-2" = "00000001-2"
  /\ pad_isbn (lib := IsbnSpec.lib) "123456789" = "0123456789".
Proof.
  destruct (pad_isbn_contract (lib := IsbnSpec.lib) "9781781792834") as [H1 _].
  destruct (pad_isbn_contract (lib := IsbnSpec.lib) "1-2") as (_ & H2 & _).
  destruct (pad_isbn_contract (lib := IsbnSpec.lib) "123456789") as (_ & _ & H3).
  split; [apply H1; vm_compute; discriminate|].
  split; [apply H2; vm_compute; (reflexivity || discriminate)|].
  apply H3; vm_compute; reflexivity.
Defined.

(** Raw length 12, cleaned length 9: unchanged. *)
Lemma pad_isbn_raw_length_10_unchanged_witness :
  Py.len (clean (IsbnLib := IsbnSpec.lib) "1-2345-678-9") < 10
  /\ pad_isbn (lib := IsbnSpec.lib) "1-2345-678-9" = "1-2345-678-9".
Proof.
  split; [vm_compute; reflexivity|].
  apply (pad_isbn_raw_length_10_unchanged (lib := IsbnSpec.lib) "1-2345-678-9").
  vm_compute. discriminate.
Defined.

(** [123456788] fails as given and padded; [9781781792834] passes. *)
Lemma check_bobcat_isbn_fetches_witness :
  check_bobcat_isbn (lib := IsbnSpec.lib) (drv := scripted holds_all)
    "123456788" (fresh EmptyString)
  = (Returned false, fresh EmptyString)
  /\ exists url,
       requests (snd (check_bobcat_isbn (lib := IsbnSpec.lib)
                        (drv := scripted holds_all)
                        "9781781792834" (fresh EmptyString)))
       = [url].
Proof.
  split.
  - apply (check_bobcat_isbn_fetches (lib := IsbnSpec.lib)
             (drv := scripted holds_all) "123456788" (fresh EmptyString));
      reflexivity.
  - destruct (proj2 (check_bobcat_isbn_fetches (lib := IsbnSpec.lib)
                       (drv := scripted holds_all) "9781781792834"
                       (fresh EmptyString)) (or_introl eq_refl))
      as (url & Hreq & _).
    exists url. exact Hreq.
Defined.

(** Two ISBN-13s against a catalog that holds every book. *)
Lemma batch_results_in_order_witness :
  fst (batch (lib := IsbnSpec.lib) (drv := scripted holds_all)
         ["9785990589834"; "9785446904327"] (fresh EmptyString)) = Returned tt
  /\ map fst (matches (snd (batch (lib := IsbnSpec.lib) (drv := scripted holds_all)
                              ["9785990589834"; "9785446904327"]
                              (fresh EmptyString))))
     = ["9785990589834"; "9785446904327"].
Proof.
  exact (proj1 (proj2 (batch_results_in_order (lib := IsbnSpec.lib)
                         (drv := scripted holds_all)
                         ["9785990589834"; "9785446904327"]
                         (fresh EmptyString)))
           (scripted_reliable "Sacred Books of the East")).
Defined.

(** A hyphenated ISBN-13 goes into the URL with its hyphens. *)
Lemma hyphens_and_spaces_kept_witness :
  validate_isbn (lib := IsbnSpec.lib) "978-1-78179-283-4" = true
  /\ requests (snd (check_bobcat_isbn (lib := IsbnSpec.lib)
                      (drv := scripted holds_all)
                      "978-1-78179-283-4" (fresh EmptyString)))
     = [base_url ++ "978-1-78179-283-4"].
Proof.
  destruct (hyphens_and_spaces_kept IsbnSpec.lib string (scripted holds_all)
              "978-1-78179-283-4" (fresh EmptyString)) as (_ & _ & _ & H).
  split; [reflexivity|]. apply H. reflexivity.
Defined.

(** A page with the marker in the middle, and a page without it. *)
Lemma is_found_marker_witness :
  is_found "Nothing here. No records found for this search." = false
  /\ is_found "Sacred Books of the East" = true.
Proof.
  split.
  - apply (proj1 (is_found_marker "Nothing here. No records found for this search.")).
    exists "Nothing here. ", " for this search.". reflexivity.
  - apply (proj1 (proj2 (is_found_marker "Sacred Books of the East"))).
    intros H. apply SubstringFacts.str_in_occurs in H. discriminate H.
Defined.

(** The thirteen digits of a hyphenated ISBN-13 obey the rule. *)
Lemma validate_isbn_checksum_rules_witness :
  validate_isbn (lib := IsbnSpec.lib) "978-1-78179-283-4" = true.
Proof.
  apply (proj2 (IsbnSpecFacts.validate_isbn_checksum_rules "978-1-78179-283-4")).
  exists 9, 7, 8, 1, 7, 8, 1, 7, 9, 2, 8, 3, 4.
  split; [reflexivity|]. split; [|reflexivity].
  repeat constructor; discriminate.
Defined.

(** * Further properties of the notebook's code *)

(** ** Padding and normalisation, continued *)

Section PadMore.

Context {lib : IsbnLib}.

(** Padding never shortens a string and never makes it longer than the
    longer of 10 and its own length. *)
Theorem pad_isbn_length_bounds (s : string) :
  Py.len s <= Py.len (pad_isbn s) <= Z.max 10 (Py.len s).
Proof.
  destruct (Z.ltb_spec (Py.len (clean s)) 10) as [Hc|Hc].
  - rewrite len_pad_isbn_short_clean by assumption. lia.
  - rewrite pad_isbn_long_clean by assumption. lia.
Qed.

(** Padding a padded string changes nothing. *)
Theorem pad_isbn_twice (s : string) : pad_isbn (pad_isbn s) = pad_isbn s.
Proof. apply pad_isbn_idem. Qed.

End PadMore.

Module CaseFacts.
Import Py.

Lemma is_lower_upper_char (c : ascii) : is_lower (upper_char c) = false.
Proof.
  unfold upper_char. destruct (is_lower c) eqn:Hc; [|exact Hc].
  unfold is_lower in Hc. apply andb_true_iff in Hc as [Hlo Hhi].
  apply Nat.leb_le in Hlo. apply Nat.leb_le in Hhi.
  unfold is_lower. rewrite nat_ascii_embedding by lia.
  apply andb_false_iff. left. apply Nat.leb_gt. lia.
Qed.

Lemma every_char_app (p : ascii -> bool) (s t : string) :
  every_char p (s ++ t) = every_char p s && every_char p t.
Proof.
  induction s as [|c s IH]; [reflexivity|]. cbn [append every_char].
  now rewrite IH, andb_assoc.
Qed.

Lemma upper_no_lower (s : string) :
  every_char (fun c => negb (is_lower c)) (upper s) = true.
Proof.
  induction s as [|c s IH]; [reflexivity|]. cbn [upper every_char].
  now rewrite is_lower_upper_char, IH.
Qed.

Lemma zeros_no_lower (k : nat) :
  every_char (fun c => negb (is_lower c)) (repeat_str "0" k) = true.
Proof. induction k as [|k IH]; [reflexivity | exact IH]. Qed.

End CaseFacts.

(** No lower-case letter is left in a normalised ISBN: the string recorded
    in [matches] and sent to the catalog has none of [a] to [z]. *)
Theorem normalize_no_lowercase (lib : IsbnLib) (s : string) :
  every_char (fun c => negb (Py.is_lower c)) (normalize s) = true.
Proof.
  unfold normalize. destruct (pad_isbn_zeros (Py.upper s)) as [k ->].
  now rewrite CaseFacts.every_char_app, CaseFacts.zeros_no_lower,
    CaseFacts.upper_no_lower.
Qed.

(** ** The lookup, continued *)

Section LookupMore.

Context {lib : IsbnLib} {B : Type} {drv : WebDriver B}.

(** An answer [True] is never made up: it comes from a page that the
    browser did load for this ISBN and whose text lacks the marker. *)
Theorem check_bobcat_isbn_true_is_fetched (isbn : string) (w : world B) :
  fst (check_bobcat_isbn isbn w) = Returned true ->
  exists url b text,
    query_url isbn = Some url
    /\ driver_get url (browser w) = Some b
    /\ driver_html_text b = Some text
    /\ ~ Py.occurs_in no_records text.
Proof.
  destruct (query_url isbn) as [url|] eqn:Hq.
  - rewrite (check_bobcat_isbn_fetch _ _ _ Hq).
    destruct (driver_get url (browser w)) as [b|] eqn:Hg; [|discriminate].
    cbn zeta. destruct (driver_html_text b) as [text|] eqn:Ht; [|discriminate].
    cbn [fst]. intros Hf. exists url, b, text. repeat split; auto.
    intros Hocc. apply is_found_false_iff in Hocc. congruence.
  - rewrite check_bobcat_isbn_skip by assumption. discriminate.
Qed.

Lemma check_bobcat_isbn_stdout (isbn : string) (w : world B) :
  stdout (snd (check_bobcat_isbn isbn w)) = stdout w.
Proof.
  destruct (query_url isbn) as [url|] eqn:Hq.
  - rewrite (check_bobcat_isbn_fetch _ _ _ Hq).
    destruct (driver_get url (browser w)) as [b|]; [|reflexivity].
    cbn zeta. destruct (driver_html_text b); reflexivity.
  - now rewrite check_bobcat_isbn_skip.
Qed.

(** The settle delay of two seconds is spent exactly when a navigation
    has returned; the lookup prints nothing and leaves [matches] alone. *)
Theorem check_bobcat_isbn_delay (isbn : string) (w : world B) :
  slept (snd (check_bobcat_isbn isbn w))
  = match query_url isbn with
    | Some url =>
        match driver_get url (browser w) with
        | Some _ => slept w + 2
        | None => slept w
        end
    | None => slept w
    end
  /\ stdout (snd (check_bobcat_isbn isbn w)) = stdout w
  /\ matches (snd (check_bobcat_isbn isbn w)) = matches w.
Proof.
  destruct (query_url isbn) as [url|] eqn:Hq.
  - rewrite (check_bobcat_isbn_fetch _ _ _ Hq).
    destruct (driver_get url (browser w)) as [b|]; [|now cbn].
    cbn zeta. destruct (driver_html_text b); now cbn.
  - rewrite check_bobcat_isbn_skip by assumption. now cbn.
Qed.

Lemma pad_isbn_normalize (raw : string) :
  pad_isbn (normalize raw) = normalize raw.
Proof. apply pad_isbn_idem. Qed.

Lemma query_url_normalize (raw : string) :
  query_url (normalize raw)
  = if accepted raw then Some (lookup_url raw) else None.
Proof.
  unfold query_url, accepted, lookup_url. rewrite pad_isbn_normalize.
  now destruct (validate_isbn (normalize raw)).
Qed.

(** In the loop the [elif] branch of the lookup is never the one taken:
    the ISBN is already padded, so it is either asked for as it is
    recorded or not asked for at all. *)
Theorem batch_step_asks_for_recorded_isbn (raw : string) (w : world B) :
  query_url (normalize raw)
  = (if accepted raw then Some (lookup_url raw) else None)
  /\ requests (snd (batch_step raw w))
     = (requests w ++ (if accepted raw then [lookup_url raw] else []))%list.
Proof.
  split; [apply query_url_normalize|].
  rewrite batch_step_run.
  pose proof (check_bobcat_isbn_requests (normalize raw) w) as Hr.
  rewrite query_url_normalize in Hr.
  destruct (check_bobcat_isbn (normalize raw) w) as [[found|] w1];
    cbn [snd requests] in *; rewrite Hr;
    destruct (accepted raw); now rewrite ?app_nil_r.
Qed.

End LookupMore.

(** ** The batch loop, continued *)

Section BatchMore.

Context {lib : IsbnLib} {B : Type} {drv : WebDriver B}.

(** One turn of the loop on an input that fails validation. *)
Lemma batch_step_rejected (raw : string) (w : world B) :
  accepted raw = false ->
  batch_step raw w
  = (Returned tt,
     mkWorld (browser w) (requests w) (slept w)
       (stdout w ++ [report (normalize raw) false])
       (matches w ++ [(normalize raw, false)])).
Proof.
  intros Ha. rewrite batch_step_run, check_bobcat_isbn_skip; [reflexivity|].
  now rewrite query_url_normalize, Ha.
Qed.

(** One turn of the loop on an input that passes validation. *)
Lemma batch_step_accepted (raw : string) (w : world B) :
  accepted raw = true ->
  batch_step raw w
  = match driver_get (lookup_url raw) (browser w) with
    | None =>
        (Raised,
         mkWorld (browser w) (requests w ++ [lookup_url raw]) (slept w)
           (stdout w) (matches w))
    | Some b =>
        match driver_html_text b with
        | None =>
            (Raised,
             mkWorld b (requests w ++ [lookup_url raw]) (slept w + 2)
               (stdout w) (matches w))
        | Some text =>
            (Returned tt,
             mkWorld b (requests w ++ [lookup_url raw]) (slept w + 2)
               (stdout w ++ [report (normalize raw) (is_found text)])
               (matches w ++ [(normalize raw, is_found text)]))
        end
    end.
Proof.
  intros Ha. rewrite batch_step_run.
  assert (Hq : query_url (normalize raw) = Some (lookup_url raw))
    by now rewrite query_url_normalize, Ha.
  rewrite (check_bobcat_isbn_fetch _ _ _ Hq).
  destruct (driver_get (lookup_url raw) (browser w)) as [b|]; [|reflexivity].
  cbn zeta. destruct (driver_html_text b); reflexivity.
Qed.

(** What a run of the loop has added to the state, whether it returned
    or raised. *)
Lemma for_each_log (isbns : list string) (w : world B) :
  exists (new : list (string * bool)) (made : list string),
    matches (snd (for_each isbns w)) = (matches w ++ new)%list
    /\ stdout (snd (for_each isbns w)) = (stdout w ++ map line_of new)%list
    /\ requests (snd (for_each isbns w)) = (requests w ++ made)%list
    /\ (List.length made <= List.length isbns)%nat
    /\ Forall (fun item => snd item = true -> validate_isbn (fst item) = true) new
    /\ Forall (fun url => exists raw,
                 In raw isbns /\ accepted raw = true /\ url = lookup_url raw) made.
Proof.
  revert w. induction isbns as [|raw rest IH]; intros w.
  - exists [], []. cbn. rewrite !app_nil_r. repeat split; auto.
  - assert (Hweak : forall made,
               Forall (fun url => exists r, In r rest /\ accepted r = true
                                            /\ url = lookup_url r) made ->
               Forall (fun url => exists r, In r (raw :: rest) /\ accepted r = true
                                            /\ url = lookup_url r) made).
    { intros made. apply Forall_impl. intros url (r & Hin & Ha & Hu).
      exists r. split; [now right | auto]. }
    rewrite for_each_cons. destruct (accepted raw) eqn:Ha.
    + rewrite batch_step_accepted by assumption.
      assert (Hhere : exists r, In r (raw :: rest) /\ accepted r = true
                                /\ lookup_url raw = lookup_url r)
        by (exists raw; split; [now left | auto]).
      destruct (driver_get (lookup_url raw) (browser w)) as [b|].
      * destruct (driver_html_text b) as [text|].
        -- match goal with |- context [for_each rest ?w1] =>
             destruct (IH w1) as (new & made & Hm & Hs & Hr & Hl & Hv & Hu)
           end.
           cbn [matches stdout requests] in Hm, Hs, Hr.
           exists ((normalize raw, is_found text) :: new), (lookup_url raw :: made).
           rewrite Hm, Hs, Hr, <- !app_assoc. cbn [List.length map app].
           split; [reflexivity|]. split; [reflexivity|]. split; [reflexivity|].
           split; [lia|]. split; constructor; auto.
        -- exists [], [lookup_url raw]. cbn [snd matches stdout requests map].
           rewrite !app_nil_r. cbn [List.length].
           split; [reflexivity|]. split; [reflexivity|]. split; [reflexivity|].
           split; [lia|]. split; constructor; auto.
      * exists [], [lookup_url raw]. cbn [snd matches stdout requests map].
        rewrite !app_nil_r. cbn [List.length].
        split; [reflexivity|]. split; [reflexivity|]. split; [reflexivity|].
        split; [lia|]. split; constructor; auto.
    + rewrite batch_step_rejected by assumption.
      match goal with |- context [for_each rest ?w1] =>
        destruct (IH w1) as (new & made & Hm & Hs & Hr & Hl & Hv & Hu)
      end.
      cbn [matches stdout requests] in Hm, Hs, Hr.
      exists ((normalize raw, false) :: new), made.
      rewrite Hm, Hs, Hr, <- !app_assoc. cbn [List.length map app].
      split; [reflexivity|]. split; [reflexivity|]. split; [reflexivity|].
      split; [lia|]. split; [|auto]. constructor; [cbn; discriminate | auto].
Qed.

(** The printed log and the result list agree: after the batch cell,
    whether it returned or raised, the lines it printed are the reports of
    the pairs in [matches], in the same order. *)
Theorem batch_stdout_reports_matches (isbns : list string) (w : world B) :
  stdout (snd (batch isbns w))
  = (stdout w ++ map line_of (matches (snd (batch isbns w))))%list.
Proof.
  rewrite batch_run.
  match goal with |- context [for_each isbns ?w0] =>
    destruct (for_each_log isbns w0) as (new & made & Hm & Hs & _)
  end.
  cbn [matches stdout] in Hm, Hs. now rewrite Hs, Hm.
Qed.

(** An ISBN recorded as found has passed validation: nothing that fails
    both checks is ever reported as held by the catalog. *)
Theorem batch_found_is_valid (isbns : list string) (w : world B) :
  Forall (fun item => snd item = true -> validate_isbn (fst item) = true)
    (matches (snd (batch isbns w))).
Proof.
  rewrite batch_run.
  match goal with |- context [for_each isbns ?w0] =>
    destruct (for_each_log isbns w0) as (new & made & Hm & _ & _ & _ & Hv & _)
  end.
  cbn [matches] in Hm. now rewrite Hm.
Qed.

(** The batch cell only adds to the requests made so far, at most one per
    input and each one the URL of an input that passed validation. *)
Theorem batch_requests_bounded (isbns : list string) (w : world B) :
  exists made : list string,
    requests (snd (batch isbns w)) = (requests w ++ made)%list
    /\ (List.length made <= List.length isbns)%nat
    /\ Forall (fun url => exists raw,
                 In raw isbns /\ accepted raw = true /\ url = lookup_url raw) made.
Proof.
  rewrite batch_run.
  match goal with |- context [for_each isbns ?w0] =>
    destruct (for_each_log isbns w0) as (new & made & _ & _ & Hr & Hl & _ & Hu)
  end.
  cbn [requests] in Hr. exists made. auto.
Qed.

End BatchMore.

Section BatchReliable.

Context {lib : IsbnLib} {B : Type} {drv : WebDriver B}.

Lemma batch_step_reliable (raw : string) (w : world B) :
  reliable drv -> accepted raw = true ->
  exists b text,
    driver_get (lookup_url raw) (browser w) = Some b
    /\ driver_html_text b = Some text
    /\ batch_step raw w
       = (Returned tt,
          mkWorld b (requests w ++ [lookup_url raw]) (slept w + 2)
            (stdout w ++ [report (normalize raw) (is_found text)])
            (matches w ++ [(normalize raw, is_found text)])).
Proof.
  intros [Hget Htext] Ha. rewrite batch_step_accepted by assumption.
  destruct (driver_get (lookup_url raw) (browser w)) as [b|] eqn:Hg;
    [|now apply Hget in Hg].
  destruct (driver_html_text b) as [text|] eqn:Ht; [|now apply Htext in Ht].
  now exists b, text.
Qed.

Lemma for_each_reliable_effects (isbns : list string) (w : world B) :
  reliable drv ->
  requests (snd (for_each isbns w))
  = (requests w ++ map lookup_url (filter accepted isbns))%list
  /\ slept (snd (for_each isbns w))
     = slept w + 2 * Z.of_nat (List.length (filter accepted isbns)).
Proof.
  intros Hrel. revert w. induction isbns as [|raw rest IH]; intros w.
  - cbn. rewrite app_nil_r. split; [reflexivity | lia].
  - rewrite for_each_cons. cbn [filter]. destruct (accepted raw) eqn:Ha.
    + destruct (batch_step_reliable raw w Hrel Ha) as (b & text & _ & _ & ->).
      match goal with |- context [for_each rest ?w1] =>
        destruct (IH w1) as [Hr Hs]
      end.
      cbn [requests slept] in Hr, Hs. rewrite Hr, Hs, <- app_assoc.
      cbn [map List.length app]. split; [reflexivity | lia].
    + rewrite batch_step_rejected by assumption.
      match goal with |- context [for_each rest ?w1] =>
        destruct (IH w1) as [Hr Hs]
      end.
      cbn [requests slept] in Hr, Hs. now rewrite Hr, Hs.
Qed.

(** When the browser calls return, the batch cell asks the catalog for
    exactly the inputs that pass validation once normalised, in input
    order and once each, and spends two seconds of settle delay on each
    of them and none on the others. *)
Theorem batch_reliable_effects (isbns : list string) (w : world B) :
  reliable drv ->
  requests (snd (batch isbns w))
  = (requests w ++ map lookup_url (filter accepted isbns))%list
  /\ slept (snd (batch isbns w))
     = slept w + 2 * Z.of_nat (List.length (filter accepted isbns)).
Proof.
  intros Hrel. rewrite batch_run.
  match goal with |- context [for_each isbns ?w0] =>
    destruct (for_each_reliable_effects isbns w0 Hrel) as [Hr Hs]
  end.
  cbn [requests slept] in Hr, Hs. auto.
Qed.

Lemma for_each_constant_answer (v : bool) (isbns : list string) (w : world B) :
  reliable drv ->
  (forall url b0 b text,
      driver_get url b0 = Some b -> driver_html_text b = Some text ->
      is_found text = v) ->
  matches (snd (for_each isbns w))
  = (matches w ++ map (fun raw => (normalize raw, accepted raw && v)) isbns)%list.
Proof.
  intros Hrel Hv. revert w. induction isbns as [|raw rest IH]; intros w.
  - cbn. now rewrite app_nil_r.
  - rewrite for_each_cons. cbn [map]. destruct (accepted raw) eqn:Ha.
    + destruct (batch_step_reliable raw w Hrel Ha) as (b & text & Hg & Ht & ->).
      rewrite IH. cbn [matches]. rewrite (Hv _ _ b text Hg Ht), <- app_assoc.
      reflexivity.
    + rewrite batch_step_rejected by assumption.
      rewrite IH. cbn [matches]. now rewrite <- app_assoc.
Qed.

(** Against a catalog whose loaded pages all give the evaluator the same
    answer [v], and with browser calls that return, the batch cell records
    for every input its normalised form together with [v] when the input
    passes validation and [False] when it does not. *)
Theorem batch_constant_answer (v : bool) (isbns : list string) (w : world B) :
  reliable drv ->
  (forall url b0 b text,
      driver_get url b0 = Some b -> driver_html_text b = Some text ->
      is_found text = v) ->
  matches (snd (batch isbns w))
  = map (fun raw => (normalize raw, accepted raw && v)) isbns.
Proof.
  intros Hrel Hv. rewrite batch_run.
  now rewrite (for_each_constant_answer v isbns _ Hrel Hv).
Qed.

(** An exception in a lookup ends the batch cell there: the cell raises,
    the later inputs are not processed, nothing is recorded or printed for
    the input whose lookup raised, and that lookup's one request is the
    last one made. *)
Theorem batch_stops_at_exception
    (done rest : list string) (raw : string) (w : world B) :
  fst (batch done w) = Returned tt ->
  fst (check_bobcat_isbn (normalize raw) (snd (batch done w))) = Raised ->
  fst (batch (done ++ raw :: rest) w) = Raised
  /\ matches (snd (batch (done ++ raw :: rest) w)) = matches (snd (batch done w))
  /\ stdout (snd (batch (done ++ raw :: rest) w)) = stdout (snd (batch done w))
  /\ requests (snd (batch (done ++ raw :: rest) w))
     = (requests (snd (batch done w)) ++ [lookup_url raw])%list.
Proof.
  rewrite !batch_run.
  match goal with |- context [for_each done ?w0] => set (start := w0) end.
  rewrite for_each_app.
  destruct (for_each done start) as [[u|] w1]; cbn [fst snd]; [|discriminate].
  intros _ Hraise. rewrite for_each_cons, batch_step_run.
  pose proof (check_bobcat_isbn_stdout (normalize raw) w1) as Hs.
  pose proof (check_bobcat_isbn_matches (normalize raw) w1) as Hm.
  pose proof (check_bobcat_isbn_requests (normalize raw) w1) as Hr.
  rewrite query_url_normalize in Hr.
  destruct (accepted raw) eqn:Ha.
  - destruct (check_bobcat_isbn (normalize raw) w1) as [[found|] w2];
      cbn [fst snd] in *; [discriminate|]. auto.
  - rewrite check_bobcat_isbn_skip in Hraise
      by now rewrite query_url_normalize, Ha.
    discriminate.
Qed.

End BatchReliable.

(** ** The match evaluator, continued *)

(** Text around a page that shows the marker cannot hide it: if the
    evaluator answers [False] on a text, it answers [False] on every text
    that contains it. *)
Theorem is_found_false_in_context (before text after : string) :
  is_found text = false -> is_found (before ++ text ++ after) = false.
Proof.
  rewrite !is_found_false_iff. intros (p & q & ->).
  exists (before ++ p), (q ++ after).
  now rewrite !CsvFacts.append_assoc.
Qed.

(** ** The CSV export, continued *)

Module CsvMore.
Import Csv.

Lemma write_field_plain (f : string) : needs_quotes f = false -> write_field f = f.
Proof. intros H. unfold write_field. now rewrite H. Qed.

Lemma writerow_plain (item : string * bool) :
  needs_quotes (fst item) = false ->
  writerow (row_of_match item) = plain_row item.
Proof.
  intros H. unfold row_of_match. rewrite CsvFacts.writerow_pair.
  rewrite write_field_plain by assumption.
  unfold plain_row. now destruct (snd item).
Qed.

End CsvMore.

(** When no ISBN of the results contains a comma, an apostrophe, a CR or
    an LF, the exported file is the header line followed by one line
    [isbn,True] or [isbn,False] per result, in order, each closed by CR LF
    and with no quote character added. *)
Theorem export_csv_plain (items : list (string * bool)) :
  Forall (fun item => Csv.needs_quotes (fst item) = false) items ->
  export_csv items = "isbn,match" ++ Csv.lineterminator ++ plain_rows items.
Proof.
  intros H. unfold export_csv.
  change (Csv.writerow ["isbn"; "match"]) with ("isbn,match" ++ Csv.lineterminator).
  rewrite CsvFacts.append_assoc. do 2 f_equal.
  induction H as [|item items Hitem _ IH]; [reflexivity|].
  cbn [writerows plain_rows]. now rewrite CsvMore.writerow_plain, IH.
Qed.

(** The export loses nothing: two different result lists never give the
    same file, whatever characters their ISBN strings contain. *)
Theorem export_csv_injective (a b : list (string * bool)) :
  a <> b -> export_csv a <> export_csv b.
Proof.
  intros Hab Heq. apply Hab.
  apply (f_equal CsvReader.read_matches) in Heq.
  rewrite !CsvFacts.read_matches_export in Heq. now inversion Heq.
Qed.

(** ** Reading the input file *)

Module LinesFacts.
Import Lines.

Lemma has_break_app (s t : string) :
  has_break (s ++ t) = has_break s || has_break t.
Proof.
  induction s as [|c s IH]; [reflexivity|]. cbn [append has_break].
  now rewrite IH, orb_assoc.
Qed.

Lemma not_break_not_lf (c : ascii) : is_break c = false -> Ascii.eqb c "010" = false.
Proof.
  intros H. destruct (Ascii.eqb c "010") eqn:Hc; [|reflexivity].
  apply Ascii.eqb_eq in Hc. subst c. discriminate H.
Qed.

Lemma split_no_break (s cur : string) (after_cr : bool) :
  has_break cur = false ->
  Forall (fun line => has_break line = false) (split s cur after_cr).
Proof.
  revert cur after_cr. induction s as [|c s IH]; intros cur after_cr Hcur.
  - cbn [split]. destruct cur; [constructor | now repeat constructor].
  - cbn [split]. destruct (after_cr && Ascii.eqb c "010"); [now apply IH|].
    destruct (is_break c) eqn:Hc.
    + constructor; [assumption | now apply IH].
    + apply IH. rewrite has_break_app. cbn [has_break].
      now rewrite Hcur, Hc.
Qed.

(** A line without boundary characters is read into [cur] as it is. *)
Lemma split_line (line rest cur : string) (after_cr : bool) :
  has_break line = false ->
  split (line ++ rest) cur after_cr
  = match line with
    | EmptyString => split rest cur after_cr
    | String _ _ => split rest (cur ++ line) false
    end.
Proof.
  revert cur after_cr. induction line as [|c line IH]; intros cur after_cr H;
    [reflexivity|].
  cbn [has_break] in H. apply orb_false_iff in H as [Hc Hline].
  cbn [append split]. rewrite (not_break_not_lf c Hc), andb_false_r, Hc.
  rewrite IH by assumption. destruct line as [|c' line'].
  - reflexivity.
  - now rewrite CsvFacts.append_assoc.
Qed.

Lemma split_line_lf (line rest : string) :
  has_break line = false ->
  split (line ++ String "010" rest) EmptyString false
  = line :: split rest EmptyString false.
Proof.
  intros H. rewrite split_line by assumption. now destruct line.
Qed.

Lemma split_line_crlf (line rest : string) :
  has_break line = false ->
  split (line ++ String "013" (String "010" rest)) EmptyString false
  = line :: split rest EmptyString false.
Proof.
  intros H. rewrite split_line by assumption. now destruct line.
Qed.

Lemma split_last (line : string) :
  has_break line = false -> line <> EmptyString ->
  split line EmptyString false = [line].
Proof.
  intros H Hne. rewrite <- (CsvFacts.append_empty line) at 1.
  rewrite split_line by assumption. destruct line; [contradiction | reflexivity].
Qed.

End LinesFacts.

(** Every string the reading cell hands to the loop is free of line
    boundary characters, whatever the file contains. *)
Theorem read_isbns_no_break (content : string) :
  Forall (fun line => Lines.has_break line = false) (read_isbns content).
Proof. now apply LinesFacts.split_no_break. Qed.

(** A file of lines that hold no boundary character, each closed by LF or
    each closed by CR LF, is read back as exactly those lines: empty lines
    are kept as empty strings and the final terminator adds no line. *)
Theorem read_isbns_unlines (lines : list string) :
  Forall (fun line => Lines.has_break line = false) lines ->
  read_isbns (Lines.unlines (String "010" EmptyString) lines) = lines
  /\ read_isbns (Lines.unlines (String "013" (String "010" EmptyString)) lines)
     = lines.
Proof.
  unfold read_isbns, Lines.splitlines.
  induction 1 as [|line lines Hline _ [IHlf IHcrlf]]; [now split|].
  cbn [Lines.unlines append]. split.
  - now rewrite LinesFacts.split_line_lf, IHlf.
  - now rewrite LinesFacts.split_line_crlf, IHcrlf.
Qed.

(** A last line that is not closed by a terminator is still read, as long
    as it is not empty. *)
Theorem read_isbns_unterminated (lines : list string) (last : string) :
  Forall (fun line => Lines.has_break line = false) lines ->
  Lines.has_break last = false -> last <> EmptyString ->
  read_isbns (Lines.unlines (String "010" EmptyString) lines ++ last)
  = (lines ++ [last])%list.
Proof.
  unfold read_isbns, Lines.splitlines. intros Hlines Hlast Hne.
  induction Hlines as [|line lines Hline _ IH].
  - now apply LinesFacts.split_last.
  - cbn [Lines.unlines append app]. rewrite !CsvFacts.append_assoc.
    cbn [append]. now rewrite LinesFacts.split_line_lf, IH.
Qed.

(** ** The further properties on concrete inputs *)

(** A held book: the answer [True] traces back to a loaded page. *)
Lemma check_bobcat_isbn_true_is_fetched_witness :
  exists url b text,
    query_url (lib := IsbnSpec.lib) "9781781792834" = Some url
    /\ driver_get (WebDriver := scripted holds_all) url EmptyString = Some b
    /\ driver_html_text (WebDriver := scripted holds_all) b = Some text
    /\ ~ Py.occurs_in no_records text.
Proof.
  exact (check_bobcat_isbn_true_is_fetched (lib := IsbnSpec.lib)
           (drv := scripted holds_all) "9781781792834" (fresh EmptyString)
           eq_refl).
Defined.

(** Three inputs, the middle one invalid: two requests, four seconds. *)
Lemma batch_reliable_effects_witness :
  requests (snd (batch (lib := IsbnSpec.lib) (drv := scripted holds_all)
                   ["9785990589834"; "12345"; "978-1-78179-283-4"]
                   (fresh EmptyString)))
  = [base_url ++ "9785990589834"; base_url ++ "978-1-78179-283-4"]
  /\ slept (snd (batch (lib := IsbnSpec.lib) (drv := scripted holds_all)
                   ["9785990589834"; "12345"; "978-1-78179-283-4"]
                   (fresh EmptyString)))
     = 4.
Proof.
  exact (batch_reliable_effects (lib := IsbnSpec.lib) (drv := scripted holds_all)
           ["9785990589834"; "12345"; "978-1-78179-283-4"] (fresh EmptyString)
           (scripted_reliable "Sacred Books of the East")).
Defined.

(** A catalog that holds nothing: every input is recorded as not found. *)
Lemma batch_constant_answer_witness :
  matches (snd (batch (lib := IsbnSpec.lib) (drv := scripted holds_none)
                  ["9785990589834"; "12345"] (fresh EmptyString)))
  = [("9785990589834", false); ("0000012345", false)].
Proof.
  apply (batch_constant_answer (lib := IsbnSpec.lib) (drv := scripted holds_none)
           false ["9785990589834"; "12345"] (fresh EmptyString)
           (scripted_reliable "No records found")).
  intros url b0 b text Hget Htext. cbn in Hget, Htext.
  inversion Hget; subst b. inversion Htext; subst text. reflexivity.
Defined.

(** The page of the second ISBN never loads: one pair, then the exception. *)
Lemma batch_stops_at_exception_witness :
  fst (batch (lib := IsbnSpec.lib)
         (drv := scripted (fails_on (base_url ++ "9785446904327")))
         ["9785990589834"; "9785446904327"; "9781781792834"]
         (fresh EmptyString))
  = Raised
  /\ matches (snd (batch (lib := IsbnSpec.lib)
                     (drv := scripted (fails_on (base_url ++ "9785446904327")))
                     ["9785990589834"; "9785446904327"; "9781781792834"]
                     (fresh EmptyString)))
     = [("9785990589834", true)].
Proof.
  destruct (batch_stops_at_exception (lib := IsbnSpec.lib)
              (drv := scripted (fails_on (base_url ++ "9785446904327")))
              ["9785990589834"] ["9781781792834"] "9785446904327"
              (fresh EmptyString) eq_refl eq_refl) as (Hraise & Hmatches & _).
  split; [exact Hraise | exact Hmatches].
Defined.

(** The marker inside a page of markup. *)
Lemma is_found_false_in_context_witness :
  is_found ("<html><body>" ++ no_records ++ "</body></html>") = false.
Proof.
  apply (is_found_false_in_context "<html><body>" no_records "</body></html>").
  reflexivity.
Defined.

(** Two results with plain ISBNs. *)
Lemma export_csv_plain_witness :
  export_csv [("9781781792834", true); ("0000012345", false)]
  = "isbn,match" ++ Csv.lineterminator
    ++ "9781781792834,True" ++ Csv.lineterminator
    ++ "0000012345,False" ++ Csv.lineterminator.
Proof.
  apply (export_csv_plain [("9781781792834", true); ("0000012345", false)]).
  repeat constructor.
Defined.

(** The same ISBN found and not found: two different files. *)
Lemma export_csv_injective_witness :
  [("0-8044-2957-X", true)] <> [("0-8044-2957-X", false)]
  /\ export_csv [("0-8044-2957-X", true)] <> export_csv [("0-8044-2957-X", false)].
Proof.
  assert (H : [("0-8044-2957-X", true)] <> [("0-8044-2957-X", false)])
    by discriminate.
  split; [exact H | exact (export_csv_injective _ _ H)].
Defined.

(** Three lines, the middle one empty. *)
Lemma read_isbns_unlines_witness :
  read_isbns (Lines.unlines (String "010" EmptyString)
                ["9785990589834"; EmptyString; "0123456789"])
  = ["9785990589834"; EmptyString; "0123456789"].
Proof.
  refine (proj1 (read_isbns_unlines
                   ["9785990589834"; EmptyString; "0123456789"] _)).
  repeat constructor.
Defined.

(** Two lines, the second one not closed. *)
Lemma read_isbns_unterminated_witness :
  read_isbns (Lines.unlines (String "010" EmptyString) ["9785990589834"]
              ++ "0123456789")
  = ["9785990589834"; "0123456789"].
Proof.
  refine (read_isbns_unterminated ["9785990589834"] "0123456789" _ _ _);
    [repeat constructor | reflexivity | discriminate].
Defined.
